(** * ibm_zos_core: operator-action query and TSO command modules

    A shallow embedding of the two Ansible modules
    [plugins/modules/zos_operator_outstanding_action.py] and
    [plugins/modules/zos_tso_command.py], and the properties of their
    parsing, merging, filtering, validation and result-building code.

    Conventions of the embedding:
    - Python [str] is [string]; the text handled here (console output,
      validated parameters) is ASCII, and a character outside ASCII is an
      ordinary character that is neither white space nor a letter.
    - A Python [dict] with string keys and string values is a
      [gmap string string]; [d.get(k)] is [d !! k], [None] being [None].
    - A function that can raise returns [res A]: [Ok a] or [Raise e].
    - Calls that leave the repository ([OperatorCmd.execute],
      [module.run_command], [traceback.format_exc]) are [Variable]s of a
      [Section]. *)

From Stdlib Require Import ZArith Ascii String List Bool Lia.
From stdpp Require Import base option list strings gmap pretty.

Set Warnings "-register-all".
Local Open Scope Z_scope.
Local Open Scope nat_scope.

(** The double quote character, for messages that quote a value. *)
Definition dquote : string := String "034"%char EmptyString.

(* ===================================================================== *)
(** * Python primitives used by the modules *)
(* ===================================================================== *)

Module Py.

(** ** Exceptions and results *)

(** The exception classes the two modules can meet. [ValidationError] and
    [OperatorCmdError] are the module's own subclasses of [Error]; their
    argument is the [message] given to the constructor. [TypeError] and
    [IndexError] are the built-in ones. [ReOutsideFragment] marks a
    search pattern with regular-expression metacharacters, which this
    development does not interpret (see [re_compile]). *)
Inductive exn : Type :=
| ValidationError (message : string)
| OperatorCmdError (message : string)
| TypeError
| IndexError
| ReOutsideFragment (pattern : string).

(** The class of an exception, what an [except] clause tests. *)
Inductive exn_class : Type :=
| ValidationErrorClass
| OperatorCmdErrorClass
| TypeErrorClass
| IndexErrorClass
| ReOutsideFragmentClass.

Definition class_of (e : exn) : exn_class :=
  match e with
  | ValidationError _ => ValidationErrorClass
  | OperatorCmdError _ => OperatorCmdErrorClass
  | TypeError => TypeErrorClass
  | IndexError => IndexErrorClass
  | ReOutsideFragment _ => ReOutsideFragmentClass
  end.

Inductive res (A : Type) : Type :=
| Ok (a : A)
| Raise (e : exn).
Arguments Ok {A} a.
Arguments Raise {A} e.

(** [res] is an error monad; [x ← m; k] runs [k] when [m] did not raise. *)
#[global] Instance res_ret : MRet res := λ A a, Ok a.
#[global] Instance res_bind : MBind res := λ A B k m,
  match m with
  | Ok a => k a
  | Raise e => Raise e
  end.

(** [l[i]] *)
Definition getitem {A : Type} (l : list A) (i : nat) : res A :=
  match l !! i with
  | Some a => Ok a
  | None => Raise IndexError
  end.

(** ** Characters *)

(** [str.isspace] on ASCII: tab, line feed, vertical tab, form feed,
    carriage return, the four separators 0x1c-0x1f, and space. The regular
    expression class [\s] is the same set. *)
Definition is_space (c : ascii) : bool :=
  let n := nat_of_ascii c in
  ((9 <=? n) && (n <=? 13)) || ((28 <=? n) && (n <=? 32)).

Definition is_digit (c : ascii) : bool :=
  let n := nat_of_ascii c in (48 <=? n) && (n <=? 57).

Definition is_upper (c : ascii) : bool :=
  let n := nat_of_ascii c in (65 <=? n) && (n <=? 90).

Definition is_lower (c : ascii) : bool :=
  let n := nat_of_ascii c in (97 <=? n) && (n <=? 122).

Definition is_alnum (c : ascii) : bool := is_lower c || is_upper c || is_digit c.

Definition is_upper_or_digit (c : ascii) : bool := is_upper c || is_digit c.

Definition upper_char (c : ascii) : ascii :=
  if is_lower c then ascii_of_nat (nat_of_ascii c - 32) else c.

Definition lower_char (c : ascii) : ascii :=
  if is_upper c then ascii_of_nat (nat_of_ascii c + 32) else c.

(** ** Strings *)

Definition is_empty (s : string) : bool :=
  match s with
  | EmptyString => true
  | String _ _ => false
  end.

Fixpoint map_string (f : ascii → ascii) (s : string) : string :=
  match s with
  | EmptyString => EmptyString
  | String c s' => String (f c) (map_string f s')
  end.

(** [s.upper()], [s.lower()] *)
Definition upper (s : string) : string := map_string upper_char s.
Definition lower (s : string) : string := map_string lower_char s.

(** [s.lstrip(chars)], [s.rstrip(chars)], [s.strip(chars)], the characters
    to remove given as a predicate. *)
Fixpoint lstrip_by (p : ascii → bool) (s : string) : string :=
  match s with
  | EmptyString => EmptyString
  | String c s' => if p c then lstrip_by p s' else s
  end.

Fixpoint rstrip_by (p : ascii → bool) (s : string) : string :=
  match s with
  | EmptyString => EmptyString
  | String c s' =>
      let r := rstrip_by p s' in
      if p c && is_empty r then EmptyString else String c r
  end.

Definition strip_by (p : ascii → bool) (s : string) : string :=
  lstrip_by p (rstrip_by p s).

(** [s.strip()] *)
Definition strip (s : string) : string := strip_by is_space s.

(** [s.strip('*')] *)
Definition strip_star (s : string) : string := strip_by (Ascii.eqb "*"%char) s.

(** [s.split(sep, maxsplit)] for a separator of one character;
    [maxsplit = None] is Python's default, no limit. *)
Fixpoint split_char (sep : ascii) (maxsplit : option nat) (s : string) : list string :=
  match s with
  | EmptyString => [EmptyString]
  | String c s' =>
      match Ascii.eqb c sep, maxsplit with
      | true, None => EmptyString :: split_char sep None s'
      | true, Some (S n) => EmptyString :: split_char sep (Some n) s'
      | _, _ =>
          match split_char sep maxsplit s' with
          | piece :: rest => String c piece :: rest
          | [] => [String c EmptyString]
          end
      end
  end.

(** [re.compile(r'\s+').split(s, maxsplit)] for [maxsplit > 0], the only
    use in the modules: [n] is the number of splits still allowed and
    [in_run] says that the scan is inside the run of white space of the
    last split. *)
Fixpoint re_split_ws_from (n : nat) (in_run : bool) (s : string) : list string :=
  match s with
  | EmptyString => [EmptyString]
  | String c s' =>
      if is_space c && in_run then re_split_ws_from n true s'
      else
        match is_space c, n with
        | true, S n' => EmptyString :: re_split_ws_from n' true s'
        | _, _ =>
            match re_split_ws_from n false s' with
            | piece :: rest => String c piece :: rest
            | [] => [String c EmptyString]
            end
        end
  end.

Definition re_split_ws (maxsplit : nat) (s : string) : list string :=
  re_split_ws_from maxsplit false s.

(** [needle in hay] *)
Fixpoint is_prefix (p s : string) : bool :=
  match p, s with
  | EmptyString, _ => true
  | String a p', String b s' => if Ascii.eqb a b then is_prefix p' s' else false
  | String _ _, EmptyString => false
  end.

Fixpoint is_substring (needle hay : string) : bool :=
  if is_prefix needle hay then true
  else
    match hay with
    | EmptyString => false
    | String _ hay' => is_substring needle hay'
    end.

(** ** Regular expressions

    Every pattern written in the modules is a sequence of character
    classes, each with a repetition range, possibly anchored by [^] and
    [$]. [re_search] decides whether [pattern.search(s)] finds a match,
    which is all the modules ask of a match object. *)

Record item : Type := Item {
  item_class : ascii → bool;
  item_min : nat;
  item_max : option nat          (* [None]: no upper bound *)
}.

Record pattern : Type := Pattern {
  pat_bol : bool;                (* starts with [^] *)
  pat_items : list item;
  pat_eol : bool                 (* ends with [$] *)
}.

(** [$] outside MULTILINE mode: at the end of the string, or just before a
    newline that ends it. *)
Definition at_eol (s : string) : bool :=
  match s with
  | EmptyString => true
  | String c EmptyString => Ascii.eqb c "010"%char
  | _ => false
  end.

(** Some split of [s] gives between [min] and [max] characters of the class
    followed by a rest accepted by [k]. *)
Fixpoint match_rep (cls : ascii → bool) (k : string → bool)
    (min : nat) (max : option nat) (s : string) : bool :=
  if match min with 0 => k s | S _ => false end then true
  else
    match max, s with
    | Some 0, _ => false
    | _, EmptyString => false
    | _, String c s' =>
        if cls c then match_rep cls k (pred min) (pred <$> max) s' else false
    end.

Fixpoint match_items (its : list item) (k : string → bool) (s : string) : bool :=
  match its with
  | [] => k s
  | it :: its' =>
      match_rep (item_class it) (match_items its' k) (item_min it) (item_max it) s
  end.

Definition match_here (p : pattern) (s : string) : bool :=
  match_items (pat_items p) (λ rest, if pat_eol p then at_eol rest else true) s.

Fixpoint search_from (p : pattern) (s : string) : bool :=
  if match_here p s then true
  else
    match s with
    | EmptyString => false
    | String _ s' => search_from p s'
    end.

(** [bool(p.search(s))] *)
Definition re_search (p : pattern) (s : string) : bool :=
  if pat_bol p then match_here p s else search_from p s.

(** The characters that are special in a pattern. *)
Definition is_meta (c : ascii) : bool :=
  is_substring (String c EmptyString) ".^$*+?{}[]\|()".

Fixpoint has_meta (s : string) : bool :=
  match s with
  | EmptyString => false
  | String c s' => if is_meta c then true else has_meta s'
  end.

Fixpoint literal_items (s : string) : list item :=
  match s with
  | EmptyString => []
  | String c s' => Item (Ascii.eqb c) 1 (Some 1) :: literal_items s'
  end.

(** [re.compile(s)] for a pattern given as data: a string without
    metacharacters stands for itself; any other is outside the fragment. *)
Definition re_compile (s : string) : res pattern :=
  if has_meta s then Raise (ReOutsideFragment s)
  else Ok (Pattern false (literal_items s) false).

(** ** Values of mixed type *)

(** The scalar values a task parameter can hold. *)
Inductive scalar : Type :=
| PyNone
| PyBool (b : bool)
| PyInt (z : Z)
| PyStr (s : string).

(** The Python values that occur in result objects: scalars, lists,
    dictionaries with text keys, and sets, which hold hashable values. *)
Inductive pyval : Type :=
| Atom (a : scalar)
| PyList (l : list pyval)
| PyDict (l : list (string * pyval))
| PySet (l : list scalar).

(** [bool(v)] *)
Definition truthy (v : scalar) : bool :=
  match v with
  | PyNone => false
  | PyBool b => b
  | PyInt z => negb (Z.eqb z 0)
  | PyStr s => negb (is_empty s)
  end.

(** [str(v)] *)
Definition py_str (v : scalar) : string :=
  match v with
  | PyStr s => s
  | PyInt z => pretty z
  | PyBool true => "True"
  | PyBool false => "False"
  | PyNone => "None"
  end.

(** [v == s] for a string [s] *)
Definition eq_str (v : scalar) (s : string) : bool :=
  match v with
  | PyStr s' => String.eqb s' s
  | _ => false
  end.

(** [a == b] on scalars; [True == 1] and [False == 0]. *)
Definition atom_eqb (a b : scalar) : bool :=
  match a, b with
  | PyNone, PyNone => true
  | PyStr x, PyStr y => String.eqb x y
  | (PyBool _ | PyInt _), (PyBool _ | PyInt _) =>
      let num v := match v with
                   | PyInt z => z
                   | PyBool true => 1%Z
                   | _ => 0%Z
                   end in
      Z.eqb (num a) (num b)
  | _, _ => false
  end.

Fixpoint set_add (v : scalar) (elts : list scalar) : list scalar :=
  match elts with
  | [] => [v]
  | w :: rest => if atom_eqb v w then elts else w :: set_add v rest
  end.

(** [hash(v)]: scalars have a hash; [dict], [list] and [set] objects are
    unhashable. *)
Definition hash_key (v : pyval) : option scalar :=
  match v with
  | Atom a => Some a
  | PyList _ | PyDict _ | PySet _ => None
  end.

(** The set display [{e1, ..., en}]: every element is hashed, in order,
    and an unhashable one raises [TypeError]. *)
Fixpoint build_set_from (elts : list pyval) (acc : list scalar) : res pyval :=
  match elts with
  | [] => Ok (PySet acc)
  | v :: rest =>
      match hash_key v with
      | Some a => build_set_from rest (set_add a acc)
      | None => Raise TypeError
      end
  end.

Definition build_set (elts : list pyval) : res pyval := build_set_from elts [].

(** [s.splitlines()] on ASCII text: a line ends at line feed, carriage
    return (with a line feed that follows it), vertical tab, form feed, or
    one of the separators 0x1c-0x1e. *)
Definition is_linebreak (c : ascii) : bool :=
  let n := nat_of_ascii c in
  ((10 <=? n) && (n <=? 13)) || ((28 <=? n) && (n <=? 30)).

Fixpoint splitlines_from (after_cr : bool) (s : string) : list string :=
  match s with
  | EmptyString => []
  | String c s' =>
      if after_cr && Ascii.eqb c "010"%char then splitlines_from false s'
      else if is_linebreak c then
        EmptyString :: splitlines_from (Ascii.eqb c "013"%char) s'
      else
        match splitlines_from false s' with
        | line :: rest => String c line :: rest
        | [] => [String c EmptyString]
        end
  end.

Definition splitlines (s : string) : list string := splitlines_from false s.

(** ** Notions used to state the properties *)

(** Every character of the text satisfies [p]. *)
Fixpoint all_chars (p : ascii → bool) (s : string) : bool :=
  match s with
  | EmptyString => true
  | String c s' => if p c then all_chars p s' else false
  end.

(** The text is not empty and its last character satisfies [p]. *)
Fixpoint ends_in (p : ascii → bool) (s : string) : bool :=
  match s with
  | EmptyString => false
  | String c s' => if is_empty s' then p c else ends_in p s'
  end.

End Py.

(* ===================================================================== *)
(** * plugins/modules/zos_operator_outstanding_action.py *)
(* ===================================================================== *)

Module OperatorAction.
Import Py.

(** A partial or merged record: a [dict] from field name to text. *)
Abbreviation record := (gmap string string).

(** ** Exception classes *)

(** [isinstance(e, Error)]: the two classes of the module derive from
    [Error], the built-in ones do not. *)
Definition is_Error (e : exn) : bool :=
  match e with
  | ValidationError _ | OperatorCmdError _ => true
  | _ => false
  end.

(** [e.msg], set by [__init__] of the two classes. *)
Definition msg (e : exn) : option string :=
  match e with
  | ValidationError message =>
      Some ("An error occurred during validate the input parameters: "
            +:+ dquote +:+ message +:+ dquote)
  | OperatorCmdError message =>
      Some ("An error occurred during issue the operator command, the response is "
            +:+ dquote +:+ message +:+ dquote)
  | _ => None
  end.

(** ** The patterns written in the module *)

Definition one (cls : ascii → bool) : item := Item cls 1 (Some 1).

(** [^[0-9]{2,}$] *)
Definition request_number_regex : pattern :=
  Pattern true [Item is_digit 2 None] true.

(** [^[a-zA-Z0-9]{1,8}$] *)
Definition name_regex : pattern :=
  Pattern true [Item is_alnum 1 (Some 8)] true.

(** [\s*[0-9]{2,}\s[A-Z]{1}\s[a-zA-Z0-9]{1,8}] *)
Definition pattern_without_job_id : pattern :=
  Pattern false
    [Item is_space 0 None; Item is_digit 2 None; one is_space; one is_upper;
     one is_space; Item is_alnum 1 (Some 8)]
    false.

(** [\s*[0-9]{2,}\s[A-Z]{1}\s[A-Z0-9]{1,8}\s+[A-Z0-9]{1,8}\s] *)
Definition pattern_with_job_id : pattern :=
  Pattern false
    [Item is_space 0 None; Item is_digit 2 None; one is_space; one is_upper;
     one is_space; Item is_upper_or_digit 1 (Some 8); Item is_space 1 None;
     Item is_upper_or_digit 1 (Some 8); one is_space]
    false.

(** [\s*[0-9]{2,}\s[A-Z]{1}\s[A-Z0-9]{1,8}\s+] *)
Definition pattern_with_jobname : pattern :=
  Pattern false
    [Item is_space 0 None; Item is_digit 2 None; one is_space; one is_upper;
     one is_space; Item is_upper_or_digit 1 (Some 8); Item is_space 1 None]
    false.

(** ** Validation *)

(** The source passes the pattern as text and compiles it; here the
    caller passes the compiled pattern. *)
Definition validate_parameters_based_on_regex (value : string) (regex : pattern)
    : res string :=
  if re_search regex value then Ok value
  else Raise (ValidationError value).

Fixpoint request_number_list_loop (arg_val : list scalar) : res unit :=
  match arg_val with
  | [] => Ok ()
  | value :: rest =>
      if truthy value && negb (eq_str value "all") then
        _ ← validate_parameters_based_on_regex (py_str value) request_number_regex;
        request_number_list_loop rest
      else request_number_list_loop rest
  end.

Definition request_number_list_type (arg_val : list scalar) : res (list scalar) :=
  _ ← request_number_list_loop arg_val;
  Ok arg_val.

Definition system_type (arg_val : string) : res string :=
  let arg_val :=
    if negb (is_empty arg_val) && negb (String.eqb arg_val "*")
    then strip_star arg_val else arg_val in
  let value := arg_val in
  _ ← validate_parameters_based_on_regex value name_regex;
  Ok arg_val.

Definition message_id_type (arg_val : string) : res string :=
  let arg_val :=
    if negb (is_empty arg_val) && negb (String.eqb arg_val "*")
    then strip_star arg_val else arg_val in
  let value := arg_val in
  _ ← validate_parameters_based_on_regex value name_regex;
  Ok arg_val.

Definition jobname_type (arg_val : string) : res string :=
  let arg_val :=
    if negb (is_empty arg_val) && negb (String.eqb arg_val "*")
    then strip_star arg_val else arg_val in
  let value := arg_val in
  _ ← validate_parameters_based_on_regex value name_regex;
  Ok arg_val.

(** ** Form A parser *)

(** The local variables of [parse_result_a]. The module assigns [endflag]
    on the last line and reads [end_flag]: two different names. *)
Record state_a : Type := StateA {
  dict_temp : record;
  list_a : list record;
  request_temp : string;
  end_flag : bool;
  endflag : bool
}.

Definition init_a : state_a := StateA ∅ [] EmptyString false false.

(** The flush at the head of the [if n or m or end_flag] branch. *)
Definition flush_a (st : state_a) : state_a :=
  if negb (is_empty (request_temp st)) then
    StateA ∅
      (list_a st ++ [<["message_text" := request_temp st]> (dict_temp st)])
      EmptyString (end_flag st) (endflag st)
  else st.

(** One turn of the [for index, line in enumerate(lines)] loop. *)
Definition step_a (len : nat) (st : state_a) (index : nat) (line : string)
    : res state_a :=
  let line := strip line in
  let m := re_search pattern_without_job_id line in
  let n := re_search pattern_with_job_id line in
  let st :=
    if index =? len - 1
    then StateA (dict_temp st) (list_a st) (request_temp st) (end_flag st) true
    else st in
  if n || m || end_flag st then
    let st := flush_a st in
    if n then
      let elements := re_split_ws 4 line in
      e0 ← getitem elements 0;
      e1 ← getitem elements 1;
      e2 ← getitem elements 2;
      e3 ← getitem elements 3;
      let d : record :=
        <["number" := e0]> (<["type" := e1]> (<["system" := e2]>
          (<["job_id" := e3]> ∅))) in
      e4 ← getitem elements 4;
      Ok (StateA d (list_a st) (strip e4) (end_flag st) (endflag st))
    else if m then
      let elements := split_char " " (Some 3) line in
      e0 ← getitem elements 0;
      e1 ← getitem elements 1;
      e2 ← getitem elements 2;
      let d : record :=
        <["number" := e0]> (<["type" := e1]> (<["system" := e2]> ∅)) in
      e3 ← getitem elements 3;
      Ok (StateA d (list_a st) (strip e3) (end_flag st) (endflag st))
    else Ok st
  else
    if negb (is_empty (request_temp st)) then
      Ok (StateA (dict_temp st) (list_a st)
            (request_temp st +:+ " " +:+ line) (end_flag st) (endflag st))
    else Ok st.

Fixpoint loop_a (len : nat) (index : nat) (lines : list string) (st : state_a)
    : res state_a :=
  match lines with
  | [] => Ok st
  | line :: rest =>
      st' ← step_a len st index line;
      loop_a len (S index) rest st'
  end.

(** The state in which the loop of [parse_result_a] ends. *)
Definition run_a (result : string) : res state_a :=
  let lines := split_char "010" None result in
  loop_a (length lines) 0 lines init_a.

Definition parse_result_a (result : string) : res (list record) :=
  st ← run_a result;
  Ok (list_a st).

(** ** Form B parser *)

Definition step_b (list_b : list record) (line : string) : res (list record) :=
  let line := strip line in
  let m := re_search pattern_with_jobname line in
  if m then
    let elements := re_split_ws 5 line in
    e0 ← getitem elements 0;
    e2 ← getitem elements 2;
    e4 ← getitem elements 4;
    let d : record :=
      <["number" := e0]> (<["jobname" := e2]> (<["message_id" := e4]> ∅)) in
    Ok (list_b ++ [d])
  else Ok list_b.

Fixpoint loop_b (lines : list string) (list_b : list record) : res (list record) :=
  match lines with
  | [] => Ok list_b
  | line :: rest =>
      list_b' ← step_b list_b line;
      loop_b rest list_b'
  end.

Definition parse_result_b (result : string) : res (list record) :=
  loop_b (split_char "010" None result) [].

(** ** Merger *)

(** [dict_z = dict_a.copy(); dict_z.update(dict_b)]: the union that
    prefers [dict_b]. *)
Definition overlay (dict_a dict_b : record) : record := dict_b ∪ dict_a.

Fixpoint merge_inner (dict_a : record) (list_b merged_list : list record)
    : list record :=
  match list_b with
  | [] => merged_list
  | dict_b :: rest =>
      merge_inner dict_a rest
        (if decide (dict_a !! "number" = dict_b !! "number")
         then merged_list ++ [overlay dict_a dict_b]
         else merged_list)
  end.

Fixpoint merge_outer (list_a list_b merged_list : list record) : list record :=
  match list_a with
  | [] => merged_list
  | dict_a :: rest => merge_outer rest list_b (merge_inner dict_a list_b merged_list)
  end.

Definition merge_list (list_a list_b : list record) : list record :=
  merge_outer list_a list_b [].

(** ** Filter *)

(** The parameters after [parse_args]; an absent option is [None]. *)
Record params : Type := Params {
  request_number_list : list scalar;
  system : option string;
  message_id : option string;
  jobname : option string
}.

Fixpoint handle_conditions_loop (regex : pattern) (condition_type : string)
    (rows newlist : list record) : res (list record) :=
  match rows with
  | [] => Ok newlist
  | dict :: rest =>
      match dict !! condition_type with
      | None => Raise TypeError       (* [regex.search(None)] *)
      | Some field =>
          handle_conditions_loop regex condition_type rest
            (if re_search regex field then newlist ++ [dict] else newlist)
      end
  end.

Definition handle_conditions (rows : list record) (condition_type : string)
    (condition_values : string) : res (list record) :=
  regex ← re_compile condition_values;
  handle_conditions_loop regex condition_type rows [].

(** The inner [for dict in merged_list] with its [break]. *)
Fixpoint first_with_number (number : scalar) (merged_list newlist : list record)
    : list record :=
  match merged_list with
  | [] => newlist
  | dict :: rest =>
      if decide (dict !! "number" = Some (py_str number))
      then newlist ++ [dict]
      else first_with_number number rest newlist
  end.

Fixpoint select_numbers (numbers : list scalar) (merged_list newlist : list record)
    : list record :=
  match numbers with
  | [] => newlist
  | number :: rest =>
      select_numbers rest merged_list (first_with_number number merged_list newlist)
  end.

(** The first step of [filter_requests], up to [newlist = merged_list]. *)
Definition number_selection (merged_list : list record)
    (request_number_list : list scalar) : list record :=
  if negb (existsb (λ request, String.eqb (lower "all") (lower (py_str request)))
             request_number_list)
  then select_numbers request_number_list merged_list []
  else merged_list.

(** [if x:] for an optional text parameter, then [x.upper().strip('*')]. *)
Definition condition_of (x : option string) : option string :=
  match x with
  | Some s => if is_empty s then None else Some (strip_star (upper s))
  | None => None
  end.

Definition filter_requests (merged_list : list record) (p : params)
    : res (list record) :=
  let newlist := number_selection merged_list (request_number_list p) in
  newlist ←
    match condition_of (system p) with
    | Some v => handle_conditions newlist "system" v
    | None => Ok newlist
    end;
  newlist ←
    match condition_of (jobname p) with
    | Some v => handle_conditions newlist "jobname" v
    | None => Ok newlist
    end;
  newlist ←
    match condition_of (message_id p) with
    | Some v => handle_conditions newlist "message_id" v
    | None => Ok newlist
    end;
  Ok newlist.

(** ** Command execution and the query *)

Definition no_request_message : string :=
  "There is no such request given the condition, check your command or update your options.".

Section Query.

(** [OperatorCmd.execute] of [zoautil_py]: the [rc] and [message] of the
    dictionary it returns. *)
Variable OperatorCmd_execute : string → Z * string.

Definition execute_command (operator_cmd : string) : res string :=
  let rc_message := OperatorCmd_execute operator_cmd in
  let rc := fst rc_message in
  let message := snd rc_message in
  if (rc >? 0)%Z then Raise (OperatorCmdError message)
  else Ok message.

Definition create_merge_list : res (list record) :=
  let operator_cmd_a := "d r,a,s" in
  let operator_cmd_b := "d r,a,jn" in
  message_a ← execute_command operator_cmd_a;
  message_b ← execute_command operator_cmd_b;
  list_a ← parse_result_a message_a;
  list_b ← parse_result_b message_b;
  Ok (merge_list list_a list_b).

Definition find_required_request (p : params) : res (list record) :=
  merged_list ← create_merge_list;
  requests ← filter_requests merged_list p;
  match requests with
  | [] => Raise (OperatorCmdError no_request_message)
  | _ => Ok requests
  end.

End Query.

(** ** The module entry point *)

(** The [result] dictionary of [run_module]: [message] is the empty text
    ([None]) until the query has succeeded, then the pair of [stdout] and
    [stderr]; [requests_count] and [requests] are the keys the success path
    adds. [original_message] is assigned [module.params] before the
    dictionary is first used. *)
Record result_t : Type := Result {
  changed : bool;
  original_message : params;
  message : option (string * string);
  requests_count : option nat;
  requests : option (list record)
}.

(** How [run_module] ends: it returns (check mode), or the process exits
    through [module.exit_json] or [module.fail_json]. *)
Inductive outcome : Type :=
| Return (r : result_t)
| ExitJson (r : result_t)
| FailJson (msg : option string) (r : result_t).

Definition success_message : string :=
  "Successfully queried the operator for outstanding actions.".

Section Module.

(** [module.check_mode] *)
Variable check_mode : bool.

(** [BetterArgParser(arg_defs).parse_args], of the collection's
    [module_utils]. *)
Variable parse_args : params → res params.

Variable OperatorCmd_execute : string → Z * string.

(** [traceback.format_exc()] while the exception is handled. *)
Variable format_exc : exn → string.

Definition run_module (module_params : params) : outcome :=
  let result := Result false module_params None None None in
  if check_mode then Return result
  else
    match new_params ← parse_args module_params;
          find_required_request OperatorCmd_execute new_params with
    | Raise e =>
        if is_Error e then FailJson (msg e) result
        else
          let trace := format_exc e in
          FailJson (Some ("An unexpected error occurred: " +:+ trace)) result
    | Ok found =>
        let result :=
          match found with
          | [] => result
          | _ => Result (changed result) (original_message result)
                   (message result) (Some (length found)) (requests result)
          end in
        ExitJson
          (Result (changed result) (original_message result)
             (Some (success_message, EmptyString)) (requests_count result)
             (Some found))
    end.

End Module.

(** ** Notions used to state the properties *)

(** An entry the loop of [request_number_list_type] rejects. *)
Definition offending (value : scalar) : bool :=
  truthy value && negb (eq_str value "all")
  && negb (re_search request_number_regex (py_str value)).

(** Both console commands answer with an empty display. *)
Definition quiet_console : string → Z * string := λ _, (0%Z, "").

(** The parameters of a task that sets no option. *)
Definition default_params : params := Params [PyStr "all"] None None None.

(** The records of [list_b] that join with [dict_a]. *)
Definition partners (dict_a : record) (list_b : list record) : list record :=
  filter (λ dict_b : record, dict_a !! "number" = dict_b !! "number") list_b.

(** [dict.get('number') == str(number)] *)
Definition has_number (number : scalar) (dict : record) : bool :=
  bool_decide (dict !! "number" = Some (py_str number)).

(** The entry, lower-cased, is the word "all". *)
Definition is_all (request : scalar) : bool :=
  String.eqb "all" (lower (py_str request)).

(** The record has the three attributes the filters read. *)
Definition complete (dict : record) : Prop :=
  is_Some (dict !! "system") ∧ is_Some (dict !! "jobname")
  ∧ is_Some (dict !! "message_id").

(** The record passes a criterion on the field [key]: a criterion that is
    absent or empty lets every record pass; otherwise the field has to
    contain the criterion, upper-cased and stripped of asterisks at both
    ends. *)
Definition passes (key : string) (criterion : option string) (dict : record)
    : bool :=
  match condition_of criterion with
  | None => true
  | Some value =>
      match dict !! key with
      | Some field => is_substring value field
      | None => false
      end
  end.

(** The line, stripped, matches a header pattern: [n or m]. *)
Definition is_header (line : string) : bool :=
  re_search pattern_with_job_id (strip line)
  || re_search pattern_without_job_id (strip line).

(** How many of the lines are headers. *)
Definition headers (lines : list string) : nat :=
  length (List.filter is_header lines).

(** The line, stripped, matches the header pattern of Form B. *)
Definition is_header_b (line : string) : bool :=
  re_search pattern_with_jobname (strip line).

(** The fields [parse_result_b] splits a line into. *)
Definition fields_b (line : string) : list string :=
  re_split_ws 5 (strip line).

(** How many runs of white space the text has, a run that the text starts
    with not counted when [in_run] says it began before the text. *)
Fixpoint runs (in_run : bool) (s : string) : nat :=
  match s with
  | EmptyString => 0
  | String c s' =>
      if is_space c then (if in_run then runs true s' else S (runs true s'))
      else runs false s'
  end.

(** What the loop of [parse_result_a] carries from line to line, the two
    flags left out. *)
Definition core_a (st : state_a) : record * list record * string :=
  (dict_temp st, list_a st, request_temp st).

(** The record still in progress in a state, closed as the flush closes
    it; none when no text has been gathered. *)
Definition open_record (st : state_a) : list record :=
  if is_empty (request_temp st) then []
  else [<["message_text" := request_temp st]> (dict_temp st)].

(** The [number] of each record of a list, in order. *)
Definition numbers_of (l : list record) : list (option string) :=
  (λ dict : record, dict !! "number") <$> l.

(** The record [parse_result_b] makes of a header line: its fields of
    index 0, 2 and 4. *)
Definition record_of_b (line : string) (dict : record) : Prop :=
  ∃ f0 f1 f2 f3 f4 rest,
    fields_b line = f0 :: f1 :: f2 :: f3 :: f4 :: rest
    ∧ dict = <["number" := f0]> (<["jobname" := f2]> (<["message_id" := f4]> ∅)).

(** A line that stops the parser: a header of four fields. *)
Definition short_header_b (line : string) : Prop :=
  is_header_b line = true ∧ length (fields_b line) = 4.

(** A line that stops [parse_result_a]: only the pattern without job id
    matches it, and it has fewer than three single spaces, so fewer than
    four fields. *)
Definition short_header_a (line : string) : Prop :=
  re_search pattern_with_job_id (strip line) = false
  ∧ re_search pattern_without_job_id (strip line) = true
  ∧ length (split_char " " (Some 3) (strip line)) < 4.

(** The state with [endflag] set to [b]. *)
Definition set_endflag (b : bool) (st : state_a) : state_a :=
  StateA (dict_temp st) (list_a st) (request_temp st) (end_flag st) b.

(** The loop of [parse_result_a] without its counter: every turn is taken
    as a turn that is not the last one. *)
Fixpoint scan_a (lines : list string) (st : state_a) : res state_a :=
  match lines with
  | [] => Ok st
  | line :: rest =>
      st' ← step_a 0 st 1 line;
      scan_a rest st'
  end.

(** The record has the fields every header gives. *)
Definition headed (dict : record) : Prop :=
  is_Some (dict !! "number") ∧ is_Some (dict !! "type")
  ∧ is_Some (dict !! "system").

(** The record is closed: it is headed and has a message text, which is
    not empty. *)
Definition closed (dict : record) : Prop :=
  headed dict
  ∧ ∃ text, dict !! "message_text" = Some text ∧ is_empty text = false.

(** Two results of the loop of [parse_result_a] that agree: the same
    exception, or states that differ in [endflag] at most. *)
Definition agree_a (r1 r2 : res state_a) : Prop :=
  match r1, r2 with
  | Ok st1, Ok st2 => core_a st1 = core_a st2 ∧ end_flag st1 = end_flag st2
  | Raise e1, Raise e2 => e1 = e2
  | _, _ => False
  end.

(** Every criterion of the parameters that is given is a value the
    validators returned. *)
Definition validated (p : params) : Prop :=
  ∀ criterion value,
    criterion ∈ [system p; jobname p; message_id p] →
    criterion = Some value →
    ∃ arg_val, system_type arg_val = Ok value.

(** The [result] dictionary an outcome carries. *)
Definition result_of (o : outcome) : result_t :=
  match o with
  | Return r | ExitJson r | FailJson _ r => r
  end.

End OperatorAction.

(* ===================================================================== *)
(** * plugins/modules/zos_tso_command.py *)
(* ===================================================================== *)

Module Tso.
Import Py.

(** The argument of [module.run_command]: a shell line
    ([use_unsafe_shell=True]) or an argument vector. *)
Inductive command_line : Type :=
| ShellCommand (line : string)
| ArgvCommand (argv : list string).

(** The [result] dictionary of [run_module]. *)
Record result_t : Type := Result {
  changed : bool;
  original_message : pyval;
  message : pyval;
  result : pyval
}.

(** How the module ends: [module.exit_json] or [module.fail_json], with
    the keyword arguments it was given. *)
Inductive outcome : Type :=
| ExitJson (r : result_t)
| FailJson (msg : option string) (r : result_t).

(** [isinstance(e, Error)] for the [Error] class of this module, which
    has no subclass and is raised nowhere. *)
Definition is_Error (e : exn) : bool := false.

Definition blank_command_message : string :=
  "The " +:+ dquote +:+ "command" +:+ dquote
  +:+ " provided was null or an empty string.".

Definition message_dict (msg stdout stderr : string) : pyval :=
  PyDict [("msg", Atom (PyStr msg)); ("stdout", Atom (PyStr stdout));
          ("stderr", Atom (PyStr stderr))].

Section Run.

(** [module.run_command]: return code, standard output, standard error. *)
Variable run_command : command_line → Z * string * string.

(** [traceback.format_exc()] while the exception is handled. *)
Variable format_exc : exn → string.

Definition run_tso_command (command : string) (auth : scalar)
    : string * string * Z :=
  let '(rc, stdout, stderr) :=
    if truthy auth then
      run_command (ShellCommand
        ("echo " +:+ command +:+
         "| mvscmdauth --pgm=IKJEFT01 --sysprint=* --systsprt=* --systsin=stdin"))
    else run_command (ArgvCommand ["tso"; command]) in
  (stdout, stderr, rc).

(** The body of the [try] of [run_module]: the [result] dictionary as it
    is when the body ends or raises, and how it ends. *)
Definition try_body (params : pyval) (result0 : result_t)
    (command : string) (auth : scalar) : result_t * res outcome :=
  let '(stdout, stderr, rc) := run_tso_command command auth in
  let ret_code :=
    PyDict [("code", Atom (PyInt rc)); ("msg_code", Atom (PyInt rc));
            ("msg_txt", Atom (PyStr ""))] in
  let content := PyList ((λ line, Atom (PyStr line)) <$> splitlines stdout) in
  let result1 :=
    Result (changed result0) params (message_dict "" stdout stderr) (result result0) in
  match build_set [ret_code; content] with
  | Raise e => (result1, Raise e)
  | Ok set =>
      let result2 :=
        Result (changed result1) (original_message result1) (message result1) set in
      if (rc =? 0)%Z then
        let result3 :=
          Result true (original_message result2)
            (message_dict "The TSO command execution succeeded." stdout stderr)
            (result result2) in
        (result3, Ok (ExitJson result3))
      else
        let result3 :=
          Result (changed result2) (original_message result2)
            (message_dict "The TSO command execution failed." stdout stderr)
            (result result2) in
        (result3, Ok (FailJson None result3))   (* no [msg] is given *)
  end.

(** [run_module], from the parameters [command] and [auth] of the task. *)
Definition run_module (command : option string) (auth : scalar) : outcome :=
  let params :=
    PyDict [("command",
             Atom (match command with Some c => PyStr c | None => PyNone end));
            ("auth", Atom auth)] in
  let result0 :=
    Result false (Atom (PyStr "")) (Atom (PyStr "")) (Atom (PyStr "")) in
  match command with
  | None => FailJson (Some blank_command_message) result0
  | Some command =>
      if is_empty (strip command) then FailJson (Some blank_command_message) result0
      else
        match try_body params result0 command auth with
        | (_, Ok o) => o
        | (result, Raise e) =>
            if is_Error e then FailJson None result   (* [except Error] *)
            else                                      (* [except Exception] *)
              let trace := format_exc e in
              FailJson (Some ("An unexpected error occurred: " +:+ trace)) result
        end
  end.

End Run.

End Tso.

(* ===================================================================== *)
(** * Properties of zos_tso_command *)
(* ===================================================================== *)

Module TsoSpec.
Import Py Tso.

(** A set display that lists a [dict] first raises, whatever follows. *)
Lemma build_set_dict_first (d : list (string * pyval)) (rest : list pyval) :
  build_set (PyDict d :: rest) = Raise TypeError.
Proof. reflexivity. Qed.

Lemma build_set_unhashable (elts : list pyval) :
  existsb (λ v, match hash_key v with None => true | Some _ => false end) elts
  = true →
  build_set elts = Raise TypeError.
Proof.
  unfold build_set. generalize (@nil scalar).
  induction elts as [|v elts IH]; intros acc H; simpl in *; [discriminate|].
  destruct (hash_key v); simpl in *; [by apply IH | done].
Qed.

Section Run.
Variable run_command : command_line → Z * string * string.
Variable format_exc : exn → string.

(** The [try] body always ends by raising [TypeError], with [result]
    holding the echoed parameters and the message skeleton only. *)
Lemma try_body_raises (params : pyval) (result0 : result_t)
    (command : string) (auth : scalar) (stdout stderr : string) (rc : Z) :
  run_tso_command run_command command auth = (stdout, stderr, rc) →
  try_body run_command params result0 command auth
  = (Result (changed result0) params (message_dict "" stdout stderr) (result result0),
     Raise TypeError).
Proof. intros H. unfold try_body. rewrite H. reflexivity. Qed.

Lemma run_module_unexpected (command : string) (auth : scalar)
    (stdout stderr : string) (rc : Z) :
  is_empty (strip command) = false →
  run_tso_command run_command command auth = (stdout, stderr, rc) →
  run_module run_command format_exc (Some command) auth
  = FailJson (Some ("An unexpected error occurred: " +:+ format_exc TypeError))
      (Result false (PyDict [("command", Atom (PyStr command)); ("auth", Atom auth)])
         (message_dict "" stdout stderr) (Atom (PyStr ""))).
Proof.
  intros Hblank Hrun. unfold run_module. rewrite Hblank.
  rewrite (try_body_raises _ _ _ _ _ _ _ Hrun). reflexivity.
Qed.

(** No input at all reaches [exit_json]. *)
Lemma run_module_never_exits (command : option string) (auth : scalar) (r : result_t) :
  run_module run_command format_exc command auth ≠ ExitJson r.
Proof.
  destruct command as [command|]; [|discriminate].
  destruct (is_empty (strip command)) eqn:Hblank.
  - unfold run_module. rewrite Hblank. discriminate.
  - destruct (run_tso_command run_command command auth) as [[stdout stderr] rc] eqn:Hrun.
    rewrite (run_module_unexpected _ _ _ _ _ Hblank Hrun). discriminate.
Qed.

(** C2. Whenever the command is not blank, so that the external command
    runs, whatever it returns: the set display [{ret_code, content}]
    raises [TypeError], [run_module] ends in [fail_json] with the
    "unexpected error" message and the [result] dictionary as it was before
    the display, and no input makes it end in [exit_json]. *)
Theorem run_module_set_display_fails (command : string) (auth : scalar)
    (stdout stderr : string) (rc : Z) :
  is_empty (strip command) = false →
  run_tso_command run_command command auth = (stdout, stderr, rc) →
  build_set
    [PyDict [("code", Atom (PyInt rc)); ("msg_code", Atom (PyInt rc));
            ("msg_txt", Atom (PyStr ""))];
     PyList ((λ line, Atom (PyStr line)) <$> splitlines stdout)] = Raise TypeError
  ∧ run_module run_command format_exc (Some command) auth
    = FailJson (Some ("An unexpected error occurred: " +:+ format_exc TypeError))
        (Result false (PyDict [("command", Atom (PyStr command)); ("auth", Atom auth)])
           (message_dict "" stdout stderr) (Atom (PyStr "")))
  ∧ ∀ command' auth' r,
      run_module run_command format_exc command' auth' ≠ ExitJson r.
Proof.
  intros Hblank Hrun.
  split; [apply build_set_dict_first|].
  split; [by apply (run_module_unexpected _ _ _ _ rc)|].
  apply run_module_never_exits.
Qed.

End Run.

Lemma run_module_set_display_fails_witness :
  run_module (λ _, (0%Z, "IKJ56650I TIME-09:01:02 AM", "")) (λ _, "TypeError")
    (Some "TIME") (PyBool false)
  = FailJson (Some "An unexpected error occurred: TypeError")
      (Result false
         (PyDict [("command", Atom (PyStr "TIME")); ("auth", Atom (PyBool false))])
         (message_dict "" "IKJ56650I TIME-09:01:02 AM" "") (Atom (PyStr ""))).
Proof.
  apply (run_module_set_display_fails (λ _, (0%Z, "IKJ56650I TIME-09:01:02 AM", ""))
           (λ _, "TypeError") "TIME" (PyBool false) "IKJ56650I TIME-09:01:02 AM" "" 0%Z);
    reflexivity.
Defined.

(** C1, at return code 0 and at return code 8: the command ran, and the
    module reports the "unexpected error" failure, neither the success
    message nor the failure message of the two branches on [rc]. *)
Theorem run_module_rc_messages_lost (format_exc : exn → string) :
  run_module (λ _, (0%Z, "IKJ56650I TIME-09:01:02 AM", "")) format_exc
    (Some "TIME") (PyBool false)
  = FailJson (Some ("An unexpected error occurred: " +:+ format_exc TypeError))
      (Result false
         (PyDict [("command", Atom (PyStr "TIME")); ("auth", Atom (PyBool false))])
         (message_dict "" "IKJ56650I TIME-09:01:02 AM" "") (Atom (PyStr "")))
  ∧ run_module (λ _, (8%Z, "", "IKJ56500I COMMAND NOTACMD NOT FOUND")) format_exc
      (Some "NOTACMD") (PyBool false)
    = FailJson (Some ("An unexpected error occurred: " +:+ format_exc TypeError))
        (Result false
           (PyDict [("command", Atom (PyStr "NOTACMD"));
                    ("auth", Atom (PyBool false))])
           (message_dict "" "" "IKJ56500I COMMAND NOTACMD NOT FOUND") (Atom (PyStr ""))).
Proof. split; reflexivity. Qed.

End TsoSpec.

(* ===================================================================== *)
(** * Properties of zos_operator_outstanding_action *)
(* ===================================================================== *)

Module OperatorActionSpec.
Import Py OperatorAction.

(** ** Regular expressions *)

Lemma append_empty_r (s : string) : s +:+ EmptyString = s.
Proof.
  induction s as [|c s IH]; [done|].
  change (String c (s +:+ EmptyString) = String c s). by rewrite IH.
Qed.

(** A repetition that may take no more character passes the text on. *)
Lemma match_rep_done (cls : ascii → bool) (k : string → bool) (s : string) :
  match_rep cls k 0 (Some 0) s = k s.
Proof. destruct s; simpl; by destruct (k _). Qed.

(** A literal pattern matches at the start of a text exactly when it is a
    prefix of it. *)
Lemma match_items_literal (value s : string) :
  match_items (literal_items value) (λ _, true) s = is_prefix value s.
Proof.
  revert s. induction value as [|c value IH]; intros s; simpl; [done|].
  destruct s as [|c' s]; simpl; [done|].
  destruct (Ascii.eqb c c'); [|done].
  by rewrite match_rep_done.
Qed.

(** Searching a literal pattern is looking for a substring. *)
Lemma re_search_literal (value field : string) :
  re_search (Pattern false (literal_items value) false) field
  = is_substring value field.
Proof.
  unfold re_search. simpl.
  induction field as [|c field IH]; simpl; unfold match_here; simpl;
    rewrite match_items_literal; [done|].
  destruct (is_prefix value (String c field)); [done|]. exact IH.
Qed.

Lemma re_compile_literal (value : string) :
  has_meta value = false →
  re_compile value = Ok (Pattern false (literal_items value) false).
Proof. intros H. unfold re_compile. by rewrite H. Qed.

(** A repetition that matches takes a prefix of characters of its class,
    within its bounds, and passes the rest on. *)
Lemma match_rep_sound (cls : ascii → bool) (k : string → bool)
    (min : nat) (max : option nat) (s : string) :
  match_rep cls k min max s = true →
  ∃ pre rest, s = pre +:+ rest ∧ all_chars cls pre = true
    ∧ min ≤ String.length pre
    ∧ (∀ m, max = Some m → String.length pre ≤ m)
    ∧ k rest = true.
Proof.
  revert min max.
  induction s as [|c s IH]; intros min max; simpl.
  - destruct min; simpl.
    + destruct (k EmptyString) eqn:Hk.
      * intros _. exists EmptyString, EmptyString. simpl. repeat split; [done| |done].
        intros m _. lia.
      * by destruct max as [[|m]|].
    + by destruct max as [[|m]|].
  - assert (Hstep : (if cls c then match_rep cls k (pred min) (pred <$> max) s
                     else false) = true →
                    max ≠ Some 0 →
                    ∃ pre rest, String c s = pre +:+ rest ∧ all_chars cls pre = true
                      ∧ min ≤ String.length pre
                      ∧ (∀ m, max = Some m → String.length pre ≤ m)
                      ∧ k rest = true).
    { destruct (cls c) eqn:Hc; [|done].
      intros (pre & rest & -> & Hall & Hmin & Hmax & Hk)%IH Hne.
      exists (String c pre), rest. simpl. rewrite Hc.
      repeat split; [done|lia| |done].
      intros m ->. destruct m as [|m]; [done|].
      specialize (Hmax m eq_refl). lia. }
    destruct min; simpl.
    + destruct (k (String c s)) eqn:Hk.
      * intros _. exists EmptyString, (String c s). simpl.
        repeat split; [done| |done]. intros m _. lia.
      * destruct max as [[|m]|]; [done| |]; intros H; by apply Hstep.
    + destruct max as [[|m]|]; [done| |]; intros H; by apply Hstep.
Qed.

Lemma match_rep_complete (cls : ascii → bool) (k : string → bool)
    (min : nat) (max : option nat) (pre rest : string) :
  all_chars cls pre = true → min ≤ String.length pre →
  (∀ m, max = Some m → String.length pre ≤ m) → k rest = true →
  match_rep cls k min max (pre +:+ rest) = true.
Proof.
  revert min max.
  induction pre as [|c pre IH]; intros min max Hall Hmin Hmax Hk; simpl in *.
  - assert (min = 0) as -> by lia. destruct rest; simpl; by rewrite Hk.
  - destruct (cls c) eqn:Hc; [|done].
    rewrite IH; [|done|lia| |done].
    + destruct (match min with 0 => _ | S _ => _ end); [done|].
      destruct max as [[|m]|]; [|done|done].
      specialize (Hmax 0 eq_refl). lia.
    + intros m Hm. destruct max as [[|m']|]; simpl in Hm;
        [specialize (Hmax 0 eq_refl); lia| |done].
      injection Hm as <-. specialize (Hmax (S m') eq_refl). lia.
Qed.

(** ** Command execution *)

Section Execute.
Variable OperatorCmd_execute : string → Z * string.

(** What [execute_command] does: it raises exactly on a positive return
    code, with the returned message, and returns the message otherwise. *)
Lemma execute_command_spec (operator_cmd : string) :
  execute_command OperatorCmd_execute operator_cmd
  = if decide (0 < fst (OperatorCmd_execute operator_cmd))%Z
    then Raise (OperatorCmdError (snd (OperatorCmd_execute operator_cmd)))
    else Ok (snd (OperatorCmd_execute operator_cmd)).
Proof.
  unfold execute_command.
  destruct (Z.gtb_spec (fst (OperatorCmd_execute operator_cmd)) 0);
    case_decide; done || lia.
Qed.

End Execute.

(** C8, at return code -1: the status is not zero, and [execute_command]
    raises nothing and returns the message. *)
Theorem execute_command_negative_rc :
  execute_command (λ _, ((-1)%Z, "IEE345I DISPLAY AUTHORITY INVALID")) "d r,a,s"
  = Ok "IEE345I DISPLAY AUTHORITY INVALID".
Proof. reflexivity. Qed.

(** ** Validation of the request number list *)

(** What [^[0-9]{2,}$] matches: two or more digits, and the same followed
    by one line feed, which [$] lets pass. *)
Lemma request_number_regex_spec (value : string) :
  re_search request_number_regex value = true
  ↔ ∃ digits, (value = digits ∨ value = digits +:+ String "010" EmptyString)
      ∧ all_chars is_digit digits = true ∧ 2 ≤ String.length digits.
Proof.
  unfold re_search, match_here. simpl. split.
  - intros (pre & rest & -> & Hall & Hmin & _ & Hrest)%match_rep_sound.
    exists pre. split; [|done].
    destruct rest as [|c [|c' rest]]; [left| |done].
    + apply append_empty_r.
    + right. by apply Ascii.eqb_eq in Hrest as ->.
  - intros (digits & Hv & Hall & Hlen).
    assert (Hv' : ∃ rest, value = digits +:+ rest ∧ at_eol rest = true).
    { destruct Hv as [->| ->]; [exists EmptyString|by eexists].
      split; [|done]. symmetry. apply append_empty_r. }
    destruct Hv' as (rest & -> & Hrest).
    by apply match_rep_complete.
Qed.

Lemma request_number_list_loop_spec (arg_val : list scalar) :
  request_number_list_loop arg_val
  = match List.find offending arg_val with
    | Some value => Raise (ValidationError (py_str value))
    | None => Ok ()
    end.
Proof.
  induction arg_val as [|value rest IH]; [done|].
  simpl. unfold offending at 1, validate_parameters_based_on_regex.
  destruct (truthy value && negb (eq_str value "all")); simpl; [|exact IH].
  destruct (re_search request_number_regex (py_str value)); simpl; [exact IH|done].
Qed.

Lemma request_number_list_type_find (arg_val : list scalar) :
  request_number_list_type arg_val
  = match List.find offending arg_val with
    | Some value => Raise (ValidationError (py_str value))
    | None => Ok arg_val
    end.
Proof.
  unfold request_number_list_type. rewrite request_number_list_loop_spec.
  by destruct (List.find offending arg_val).
Qed.

(** C9, as the module has it: [request_number_list_type] raises
    [ValidationError], naming the entry, for the first entry that is truthy
    (not the empty string, not the number 0), is not the literal "all", and
    whose text [^[0-9]{2,}$] does not match; so it raises a
    [ValidationError] if and only if the list has such an entry, and when it
    has none the list is returned unchanged. Empty entries are skipped, not
    rejected. *)
Theorem request_number_list_type_spec (arg_val : list scalar) :
  request_number_list_type arg_val
  = match List.find offending arg_val with
    | Some value => Raise (ValidationError (py_str value))
    | None => Ok arg_val
    end
  ∧ ((∃ message, request_number_list_type arg_val = Raise (ValidationError message))
     ↔ ∃ value, value ∈ arg_val ∧ truthy value = true
         ∧ eq_str value "all" = false
         ∧ re_search request_number_regex (py_str value) = false)
  ∧ ((∀ value, value ∈ arg_val → offending value = false) →
     request_number_list_type arg_val = Ok arg_val).
Proof.
  split; [apply request_number_list_type_find|].
  rewrite request_number_list_type_find.
  destruct (List.find offending arg_val) as [value|] eqn:Hfind.
  - apply find_some in Hfind as [Hin Hoff].
    split; [split|].
    + intros _. exists value. split; [by apply list_elem_of_In|].
      unfold offending in Hoff.
      apply andb_prop in Hoff as [[Ht Ha]%andb_prop Hr].
      apply negb_true_iff in Ha, Hr. done.
    + intros _. by eexists.
    + intros Hnone. apply list_elem_of_In, Hnone in Hin. congruence.
  - split; [split|done].
    + by intros [message [=]].
    + intros (value & Hin & Ht & Ha & Hr).
      apply list_elem_of_In in Hin.
      pose proof (find_none _ _ Hfind value Hin) as Hoff.
      unfold offending in Hoff. by rewrite Ht, Ha, Hr in Hoff.
Qed.

(** C9 as stated fails at the list holding one empty string: the entry is
    not "all" and the pattern does not match it, and the list is accepted. *)
Lemma request_number_list_type_empty_entry :
  request_number_list_type [PyStr ""] = Ok [PyStr ""]
  ∧ eq_str (PyStr "") "all" = false
  ∧ re_search request_number_regex (py_str (PyStr "")) = false.
Proof. repeat split. Qed.

(** ** The query *)

Section Query.
Variable OperatorCmd_execute : string → Z * string.

(** C3, as the module has it: when the commands succeed, the parsers return
    and the filtered list is empty, [find_required_request] raises
    [OperatorCmdError], the class [execute_command] raises for a failed
    command, with the fixed advisory text as its message; the [msg] reported
    wraps that text in the wording of a command failure. A list that is not
    empty is returned. *)
Theorem find_required_request_empty (p : params) (merged_list : list record) :
  create_merge_list OperatorCmd_execute = Ok merged_list →
  filter_requests merged_list p = Ok [] →
  find_required_request OperatorCmd_execute p
  = Raise (OperatorCmdError no_request_message)
  ∧ class_of (OperatorCmdError no_request_message) = OperatorCmdErrorClass
  ∧ (∀ exec cmd e, execute_command exec cmd = Raise e →
       class_of e = OperatorCmdErrorClass)
  ∧ msg (OperatorCmdError no_request_message)
    = Some ("An error occurred during issue the operator command, the response is "
            +:+ dquote +:+ no_request_message +:+ dquote).
Proof.
  intros Hm Hf. unfold find_required_request. rewrite Hm. simpl. rewrite Hf. simpl.
  repeat split.
  intros exec cmd e. rewrite execute_command_spec. by case_decide; intros [= <-].
Qed.

Lemma find_required_request_nonempty (p : params) (merged_list requests : list record) :
  create_merge_list OperatorCmd_execute = Ok merged_list →
  filter_requests merged_list p = Ok requests →
  requests ≠ [] →
  find_required_request OperatorCmd_execute p = Ok requests.
Proof.
  intros Hm Hf Hne. unfold find_required_request. rewrite Hm. simpl. rewrite Hf. simpl.
  by destruct requests.
Qed.

End Query.

Lemma find_required_request_empty_witness :
  find_required_request quiet_console default_params
  = Raise (OperatorCmdError no_request_message).
Proof.
  apply (find_required_request_empty quiet_console default_params []); reflexivity.
Defined.

(** C3 as stated fails for an empty console display: the exception raised
    for "no matching request" and the one raised for a failed command are of
    one class. *)
Lemma no_request_error_is_command_error :
  find_required_request quiet_console default_params
  = Raise (OperatorCmdError no_request_message)
  ∧ execute_command (λ _, (8%Z, "IEE305I COMMAND INVALID")) "d r,a,s"
    = Raise (OperatorCmdError "IEE305I COMMAND INVALID")
  ∧ class_of (OperatorCmdError no_request_message)
    = class_of (OperatorCmdError "IEE305I COMMAND INVALID").
Proof. repeat split. Qed.

(** ** Merger *)

Lemma merge_inner_spec (dict_a : record) (list_b merged_list : list record) :
  merge_inner dict_a list_b merged_list
  = merged_list ++ (overlay dict_a <$> partners dict_a list_b).
Proof.
  revert merged_list.
  induction list_b as [|dict_b rest IH]; intros merged_list; simpl.
  - by rewrite app_nil_r.
  - rewrite IH. unfold partners. case_decide.
    + rewrite filter_cons_True by done. by rewrite fmap_cons, <- app_assoc.
    + by rewrite filter_cons_False by done.
Qed.

Lemma merge_outer_spec (list_a list_b merged_list : list record) :
  merge_outer list_a list_b merged_list
  = merged_list ++ (list_a ≫= λ dict_a, overlay dict_a <$> partners dict_a list_b).
Proof.
  revert merged_list.
  induction list_a as [|dict_a rest IH]; intros merged_list; simpl.
  - by rewrite app_nil_r.
  - by rewrite IH, merge_inner_spec, <- app_assoc.
Qed.

Lemma overlay_lookup (dict_a dict_b : record) (key : string) :
  overlay dict_a dict_b !! key
  = match dict_b !! key with
    | Some v => Some v
    | None => dict_a !! key
    end.
Proof.
  unfold overlay. rewrite lookup_union.
  by destruct (dict_b !! key), (dict_a !! key).
Qed.

Lemma merge_list_elem (list_a list_b : list record) (dict_z : record) :
  dict_z ∈ merge_list list_a list_b
  ↔ ∃ dict_a dict_b, dict_a ∈ list_a ∧ dict_b ∈ list_b
      ∧ dict_a !! "number" = dict_b !! "number"
      ∧ dict_z = overlay dict_a dict_b.
Proof.
  unfold merge_list. rewrite merge_outer_spec. simpl.
  rewrite list_elem_of_bind. split.
  - intros (dict_a & Hz & Ha). apply list_elem_of_fmap in Hz as (dict_b & -> & Hb).
    apply list_elem_of_filter in Hb as [Hn Hb]. by exists dict_a, dict_b.
  - intros (dict_a & dict_b & Ha & Hb & Hn & ->). exists dict_a. split; [|done].
    apply list_elem_of_fmap. exists dict_b. split; [done|].
    by apply list_elem_of_filter.
Qed.

(** C5. [merge_list] is the inner join on [number]: going through
    [list_a] in order and, for each of its records, through [list_b] in
    order, it emits one record for every pair with equal [number], which is
    the record of [list_a] overlaid by the one of [list_b] (a key of both
    takes the value of [list_b]); so every record emitted comes from such a
    pair, and a number that the records of one of the lists do not carry is
    the number of no record emitted. *)
Theorem merge_list_inner_join (list_a list_b : list record) :
  merge_list list_a list_b
  = (list_a ≫= λ dict_a, overlay dict_a <$> partners dict_a list_b)
  ∧ (∀ dict_a dict_b key,
       overlay dict_a dict_b !! key
       = match dict_b !! key with
         | Some v => Some v
         | None => dict_a !! key
         end)
  ∧ (∀ dict_z,
       dict_z ∈ merge_list list_a list_b
       ↔ ∃ dict_a dict_b, dict_a ∈ list_a ∧ dict_b ∈ list_b
           ∧ dict_a !! "number" = dict_b !! "number"
           ∧ dict_z = overlay dict_a dict_b)
  ∧ (∀ number,
       (∀ dict_a, dict_a ∈ list_a → dict_a !! "number" ≠ Some number)
       ∨ (∀ dict_b, dict_b ∈ list_b → dict_b !! "number" ≠ Some number) →
       ∀ dict_z, dict_z ∈ merge_list list_a list_b →
                 dict_z !! "number" ≠ Some number).
Proof.
  split; [unfold merge_list; by rewrite merge_outer_spec|].
  split; [apply overlay_lookup|].
  split; [apply merge_list_elem|].
  intros number Hone dict_z Hz Hnum.
  apply merge_list_elem in Hz as (dict_a & dict_b & Ha & Hb & Hn & ->).
  rewrite overlay_lookup in Hnum.
  destruct (dict_b !! "number") as [v|] eqn:Hbn.
  - injection Hnum as ->. destruct Hone as [Hone|Hone].
    + by apply (Hone dict_a Ha).
    + by apply (Hone dict_b Hb).
  - congruence.
Qed.

(** The two examples of the specification. *)
Lemma merge_list_examples :
  merge_list [ {[ "number" := "1" ]} ] [ {[ "number" := "2" ]} ] = []
  ∧ merge_list [ <["number" := "1"]> {[ "a" := "1" ]} ]
               [ <["number" := "1"]> {[ "b" := "2" ]} ]
    = [ <["number" := "1"]> (<["a" := "1"]> {[ "b" := "2" ]}) ].
Proof. split; vm_compute; reflexivity. Qed.

(** ** Number selection *)

Lemma first_with_number_spec (number : scalar) (merged_list newlist : list record) :
  first_with_number number merged_list newlist
  = newlist ++ option_list (List.find (has_number number) merged_list).
Proof.
  induction merged_list as [|dict rest IH]; simpl.
  - by rewrite app_nil_r.
  - unfold has_number at 1. case_decide.
    + by rewrite bool_decide_eq_true_2.
    + by rewrite bool_decide_eq_false_2.
Qed.

Lemma select_numbers_spec (numbers : list scalar) (merged_list newlist : list record) :
  select_numbers numbers merged_list newlist
  = newlist ++ (numbers ≫= λ number,
                  option_list (List.find (has_number number) merged_list)).
Proof.
  revert newlist.
  induction numbers as [|number rest IH]; intros newlist; simpl.
  - by rewrite app_nil_r.
  - by rewrite IH, first_with_number_spec, <- app_assoc.
Qed.

Lemma number_selection_spec (merged_list : list record) (numbers : list scalar) :
  number_selection merged_list numbers
  = if existsb is_all numbers then merged_list
    else numbers ≫= λ number,
           option_list (List.find (has_number number) merged_list).
Proof.
  unfold number_selection. change (lower "all") with "all".
  change (λ request, String.eqb "all" (lower (py_str request))) with is_all.
  destruct (existsb is_all numbers); simpl; [done|].
  by rewrite select_numbers_spec.
Qed.

(** C7. With no attribute criterion, [filter_requests] is the number
    selection: when some entry of [request_number_list] is, lower-cased, the
    word "all", it returns the merged list itself; otherwise it returns, for
    each requested number in the order of the list, the first record of the
    merged list whose [number] is the text of that number, and nothing for a
    number that no record carries. *)
Theorem filter_requests_number_selection (merged_list : list record)
    (numbers : list scalar) :
  filter_requests merged_list (Params numbers None None None)
  = Ok (number_selection merged_list numbers)
  ∧ ((∃ request, request ∈ numbers ∧ lower (py_str request) = "all") →
     number_selection merged_list numbers = merged_list)
  ∧ (¬ (∃ request, request ∈ numbers ∧ lower (py_str request) = "all") →
     number_selection merged_list numbers
     = numbers ≫= λ number,
         option_list (List.find (has_number number) merged_list)).
Proof.
  split; [done|]. rewrite number_selection_spec.
  destruct (existsb is_all numbers) eqn:Hall.
  - split; [done|]. intros Hno. exfalso. apply Hno.
    apply existsb_exists in Hall as (request & Hin & Heq).
    exists request. split; [by apply list_elem_of_In|].
    symmetry. by apply String.eqb_eq.
  - split; [|done]. intros (request & Hin & Heq).
    assert (existsb is_all numbers = true) as Habs; [|congruence].
    apply existsb_exists. exists request. split; [by apply list_elem_of_In|].
    unfold is_all. rewrite Heq. reflexivity.
Qed.

Lemma filter_requests_number_selection_witness :
  number_selection
    [ <["number" := "001"]> {[ "system" := "MV27" ]};
      <["number" := "002"]> {[ "system" := "MV29" ]};
      <["number" := "002"]> {[ "system" := "MV2H" ]} ]
    [PyStr "002"; PyInt 7; PyStr "001"]
  = [ <["number" := "002"]> {[ "system" := "MV29" ]};
      <["number" := "001"]> {[ "system" := "MV27" ]} ].
Proof.
  rewrite (proj2 (proj2 (filter_requests_number_selection _ _))).
  - vm_compute. reflexivity.
  - intros (request & Hin & Heq).
    apply list_elem_of_In in Hin. simpl in Hin.
    destruct Hin as [<-|[<-|[<-|[]]]]; vm_compute in Heq; discriminate.
Defined.

(** ** The parsers raise on short header lines *)

(** C10. Neither parser is total. The line "12 R MV27" is a Form A
    header without job id made of exactly three tokens: the pattern without
    job id matches it, the pattern with job id does not, the split gives
    three fields, and [parse_result_a] raises [IndexError] at
    [elements[3]]. The line "12 R JOB1 *12" is a Form B header of four
    tokens: the pattern matches, the split gives four fields, and
    [parse_result_b] raises [IndexError] at [elements[4]]. Neither call
    returns a list, with or without a record for the line. *)
Theorem parsers_raise_IndexError :
  (re_search pattern_without_job_id (strip "12 R MV27") = true
   ∧ re_search pattern_with_job_id (strip "12 R MV27") = false
   ∧ split_char " " (Some 3) (strip "12 R MV27") = ["12"; "R"; "MV27"]
   ∧ parse_result_a "12 R MV27" = Raise IndexError)
  ∧ (re_search pattern_with_jobname (strip "12 R JOB1 *12") = true
     ∧ re_split_ws 5 (strip "12 R JOB1 *12") = ["12"; "R"; "JOB1"; "*12"]
     ∧ parse_result_b "12 R JOB1 *12" = Raise IndexError)
  ∧ (∀ records, parse_result_a "12 R MV27" ≠ Ok records)
  ∧ (∀ records, parse_result_b "12 R JOB1 *12" ≠ Ok records).
Proof.
  assert (Ha : parse_result_a "12 R MV27" = Raise IndexError)
    by (vm_compute; reflexivity).
  assert (Hb : parse_result_b "12 R JOB1 *12" = Raise IndexError)
    by (vm_compute; reflexivity).
  split; [repeat split; vm_compute; reflexivity|].
  split; [repeat split; vm_compute; reflexivity|].
  split; intros records; [rewrite Ha|rewrite Hb]; discriminate.
Qed.

(** ** Attribute filters *)

Lemma handle_conditions_loop_spec (regex : pattern) (key : string)
    (rows newlist : list record) :
  Forall (λ dict : record, is_Some (dict !! key)) rows →
  handle_conditions_loop regex key rows newlist
  = Ok (newlist ++ List.filter
          (λ dict : record, match dict !! key with
                   | Some field => re_search regex field
                   | None => false
                   end) rows).
Proof.
  intros Hrows. revert newlist.
  induction Hrows as [|dict rest [field Hf] _ IH]; intros newlist; simpl.
  - by rewrite app_nil_r.
  - rewrite Hf, IH. destruct (re_search regex field); [|done].
    by rewrite <- app_assoc.
Qed.

(** One filter, when the criterion is literal text and every record has
    the field. *)
Lemma handle_conditions_spec (rows : list record) (key value : string) :
  has_meta value = false →
  Forall (λ dict : record, is_Some (dict !! key)) rows →
  handle_conditions rows key value
  = Ok (List.filter
          (λ dict : record, match dict !! key with
                   | Some field => is_substring value field
                   | None => false
                   end) rows).
Proof.
  intros Hv Hrows. unfold handle_conditions.
  rewrite (re_compile_literal _ Hv). simpl.
  rewrite (handle_conditions_loop_spec _ _ _ _ Hrows). simpl.
  f_equal. apply filter_ext. intros dict.
  destruct (dict !! key); [|done]. apply re_search_literal.
Qed.

(** The step of [filter_requests] for one criterion. *)
Lemma filter_step_spec (rows : list record) (key : string) (criterion : option string) :
  (∀ value, condition_of criterion = Some value → has_meta value = false) →
  Forall (λ dict : record, is_Some (dict !! key)) rows →
  match condition_of criterion with
  | Some value => handle_conditions rows key value
  | None => Ok rows
  end = Ok (List.filter (passes key criterion) rows).
Proof.
  intros Hv Hrows. unfold passes.
  destruct (condition_of criterion) as [value|].
  - by apply handle_conditions_spec; [apply Hv|].
  - f_equal. induction rows as [|dict rest IH]; [done|].
    simpl. f_equal. apply IH. by inversion Hrows.
Qed.

Lemma Forall_filter_bool {A} (P : A → Prop) (f : A → bool) (l : list A) :
  Forall P l → Forall P (List.filter f l).
Proof.
  induction 1 as [|x l Hx _ IH]; simpl; [constructor|].
  destruct (f x); [by constructor|done].
Qed.

Lemma filter_filter_bool {A} (f g : A → bool) (l : list A) :
  List.filter g (List.filter f l) = List.filter (λ x, f x && g x) l.
Proof.
  induction l as [|x l IH]; simpl; [done|].
  destruct (f x); simpl; [|done]. destruct (g x); by rewrite IH.
Qed.

(** The number selection only picks records of the merged list. *)
Lemma number_selection_elem (merged_list : list record) (numbers : list scalar)
    (dict : record) :
  dict ∈ number_selection merged_list numbers → dict ∈ merged_list.
Proof.
  rewrite number_selection_spec. destruct (existsb is_all numbers); [done|].
  intros (number & Hd & _)%list_elem_of_bind.
  destruct (List.find (has_number number) merged_list) as [dict'|] eqn:Hfind;
    simpl in Hd; [|by apply not_elem_of_nil in Hd].
  apply list_elem_of_singleton in Hd as ->.
  apply list_elem_of_In. by apply (find_some _ _ Hfind).
Qed.

Lemma number_selection_Forall (P : record → Prop) (merged_list : list record)
    (numbers : list scalar) :
  Forall P merged_list → Forall P (number_selection merged_list numbers).
Proof.
  rewrite !Forall_forall. intros H dict Hd.
  by apply H, (number_selection_elem _ numbers).
Qed.

Lemma alnum_upper_not_meta (c : ascii) :
  is_alnum c = true → is_meta (upper_char c) = false.
Proof.
  destruct c as [[] [] [] [] [] [] [] []]; vm_compute; done.
Qed.

Lemma has_meta_lstrip_by (p : ascii → bool) (s : string) :
  has_meta s = false → has_meta (lstrip_by p s) = false.
Proof.
  induction s as [|c s IH]; simpl; [done|].
  destruct (is_meta c) eqn:Hc; [done|]. intros Hs.
  destruct (p c); [by apply IH|]. simpl. by rewrite Hc.
Qed.

Lemma has_meta_rstrip_by (p : ascii → bool) (s : string) :
  has_meta s = false → has_meta (rstrip_by p s) = false.
Proof.
  induction s as [|c s IH]; simpl; [done|].
  destruct (is_meta c) eqn:Hc; [done|]. intros Hs.
  destruct (p c && is_empty (rstrip_by p s)); [done|]. simpl. rewrite Hc. by apply IH.
Qed.

Lemma has_meta_upper_alnum (pre rest : string) :
  all_chars is_alnum pre = true → at_eol rest = true →
  has_meta (upper (pre +:+ rest)) = false.
Proof.
  intros Hpre Hrest. induction pre as [|c pre IH]; simpl in *.
  - destruct rest as [|c [|c' rest]]; [done| |done].
    apply Ascii.eqb_eq in Hrest as ->. reflexivity.
  - destruct (is_alnum c) eqn:Hc; [|done].
    rewrite (alnum_upper_not_meta _ Hc). by apply IH.
Qed.

(** A text that [^[a-zA-Z0-9]{1,8}$] matches is, upper-cased and
    stripped of asterisks, free of metacharacters. *)
Lemma name_regex_literal (value : string) :
  re_search name_regex value = true →
  has_meta (strip_star (upper value)) = false.
Proof.
  unfold re_search, match_here. simpl.
  intros (pre & rest & -> & Hall & _ & _ & Hrest)%match_rep_sound.
  apply has_meta_lstrip_by, has_meta_rstrip_by.
  by apply has_meta_upper_alnum.
Qed.

(** What the three validators of attribute criteria let through is
    searched as literal text by [filter_requests]. *)
Lemma validated_criterion_literal (arg_val value pattern_text : string) :
  system_type arg_val = Ok value ∨ jobname_type arg_val = Ok value
  ∨ message_id_type arg_val = Ok value →
  condition_of (Some value) = Some pattern_text →
  has_meta pattern_text = false.
Proof.
  intros Hval Hcond.
  assert (Hre : re_search name_regex value = true).
  { unfold system_type, jobname_type, message_id_type,
      validate_parameters_based_on_regex in Hval.
    destruct (negb (is_empty arg_val) && negb (String.eqb arg_val "*"));
      simpl in Hval;
      match type of Hval with
      | context [re_search name_regex ?v] =>
          destruct (re_search name_regex v) eqn:Hv; simpl in Hval;
          [|by destruct Hval as [|[|]]]
      end;
      by destruct Hval as [[= <-]|[[= <-]|[= <-]]]. }
  unfold condition_of in Hcond.
  destruct (is_empty value); [done|]. injection Hcond as <-.
  by apply name_regex_literal.
Qed.

(** C6. For merged records that have the three attributes, and criteria
    whose text, upper-cased and stripped of asterisks, is free of
    regular-expression metacharacters (what validation lets through):
    [filter_requests] keeps, of the records selected by number, exactly
    those that pass the [system] criterion, then of these those that pass the
    [jobname] criterion, then of these those that pass the [message_id]
    criterion; that is, those that pass all three, a record passing a
    criterion when the criterion is absent or empty or when the field
    contains the upper-cased, stripped text. In particular the criterion
    "MV2*" is searched as "MV2" and lets a record of system MV27 and one of
    system MV29 pass. *)
Theorem filter_requests_attribute_filters (merged_list : list record) (p : params) :
  Forall complete merged_list →
  (∀ criterion value,
     criterion ∈ [system p; jobname p; message_id p] →
     condition_of criterion = Some value → has_meta value = false) →
  filter_requests merged_list p
  = Ok (List.filter (passes "message_id" (message_id p))
          (List.filter (passes "jobname" (jobname p))
             (List.filter (passes "system" (system p))
                (number_selection merged_list (request_number_list p)))))
  ∧ filter_requests merged_list p
    = Ok (List.filter
            (λ dict, passes "system" (system p) dict
                     && passes "jobname" (jobname p) dict
                     && passes "message_id" (message_id p) dict)
            (number_selection merged_list (request_number_list p)))
  ∧ condition_of (Some "MV2*") = Some "MV2"
  ∧ (∀ dict : record,
       dict !! "system" = Some "MV27" ∨ dict !! "system" = Some "MV29" →
       passes "system" (Some "MV2*") dict = true).
Proof.
  intros Hcomplete Hlit.
  assert (Hsel : Forall complete
            (number_selection merged_list (request_number_list p)))
    by by apply number_selection_Forall.
  assert (Heq : filter_requests merged_list p
    = Ok (List.filter (passes "message_id" (message_id p))
            (List.filter (passes "jobname" (jobname p))
               (List.filter (passes "system" (system p))
                  (number_selection merged_list (request_number_list p)))))).
  { unfold filter_requests.
    rewrite (filter_step_spec _ "system" (system p)).
    - simpl. rewrite (filter_step_spec _ "jobname" (jobname p)).
      + simpl. rewrite (filter_step_spec _ "message_id" (message_id p)); [done| |].
        * intros value. apply Hlit. set_solver.
        * do 2 apply Forall_filter_bool.
          eapply Forall_impl; [exact Hsel|]. by intros dict (_ & _ & ?).
      + intros value. apply Hlit. set_solver.
      + apply Forall_filter_bool.
        eapply Forall_impl; [exact Hsel|]. by intros dict (_ & ? & _).
    - intros value. apply Hlit. set_solver.
    - eapply Forall_impl; [exact Hsel|]. by intros dict (? & _). }
  split; [exact Heq|].
  split.
  { rewrite Heq.
    rewrite (filter_filter_bool (passes "system" (system p))
               (passes "jobname" (jobname p))).
    by rewrite filter_filter_bool. }
  split; [reflexivity|].
  intros dict [Hs|Hs]; unfold passes; rewrite Hs; reflexivity.
Qed.

Lemma filter_requests_attribute_filters_witness :
  filter_requests
    [ <["number" := "215"]> (<["system" := "MV27"]> (<["jobname" := "IM5HCONN"]>
        {[ "message_id" := "HWSC0000I" ]}));
      <["number" := "216"]> (<["system" := "MV29"]> (<["jobname" := "IM5HCTRL"]>
        {[ "message_id" := "DFS3139I" ]}));
      <["number" := "217"]> (<["system" := "MV2H"]> (<["jobname" := "NETVIEW"]>
        {[ "message_id" := "DSI802A" ]})) ]
    (Params [PyStr "all"] (Some "mv2*") None (Some "im5*"))
  = Ok [ <["number" := "215"]> (<["system" := "MV27"]> (<["jobname" := "IM5HCONN"]>
           {[ "message_id" := "HWSC0000I" ]}));
         <["number" := "216"]> (<["system" := "MV29"]> (<["jobname" := "IM5HCTRL"]>
           {[ "message_id" := "DFS3139I" ]})) ].
Proof.
  etrans.
  - apply filter_requests_attribute_filters.
    + repeat constructor; vm_compute; eauto.
    + intros criterion value Hin.
      apply list_elem_of_In in Hin. simpl in Hin.
      destruct Hin as [<-|[<-|[<-|[]]]]; vm_compute; intros [= <-]; reflexivity.
  - vm_compute. reflexivity.
Defined.

(** ** Stripping and splitting *)

Lemma rstrip_by_empty (p : ascii → bool) (s : string) :
  rstrip_by p s = EmptyString → all_chars p s = true.
Proof.
  induction s as [|c s IH]; simpl; [done|].
  destruct (p c); simpl; [|done].
  destruct (rstrip_by p s); simpl; [auto|done].
Qed.

Lemma rstrip_by_ends (p : ascii → bool) (s : string) :
  ends_in p (rstrip_by p s) = false.
Proof.
  induction s as [|c s IH]; simpl; [done|].
  destruct (rstrip_by p s) as [|c' r] eqn:Hr; simpl in *.
  - destruct (p c) eqn:Hc; simpl; [done|]. by rewrite Hc.
  - rewrite andb_false_r. simpl. exact IH.
Qed.

Lemma lstrip_by_empty (p : ascii → bool) (s : string) :
  lstrip_by p s = EmptyString → all_chars p s = true.
Proof.
  induction s as [|c s IH]; simpl; [done|].
  destruct (p c); [auto|done].
Qed.

Lemma lstrip_by_ends (p : ascii → bool) (s : string) :
  ends_in p s = false → ends_in p (lstrip_by p s) = false.
Proof.
  induction s as [|c s IH]; simpl; [done|].
  destruct (p c) eqn:Hc; [|by simpl; rewrite Hc].
  destruct s; simpl in *; [done|auto].
Qed.

Lemma all_chars_ends (p : ascii → bool) (s : string) :
  all_chars p s = true → s ≠ EmptyString → ends_in p s = true.
Proof.
  induction s as [|c s IH]; simpl; [done|].
  destruct (p c); [|done]. intros Hall _.
  destruct s; simpl in *; [done|]. by apply IH.
Qed.

(** What [strip] returns does not end in a character it strips. *)
Lemma strip_by_ends (p : ascii → bool) (s : string) :
  ends_in p (strip_by p s) = false.
Proof. apply lstrip_by_ends, rstrip_by_ends. Qed.

(** [strip] returns the empty text only for a text made of characters it
    strips. *)
Lemma strip_by_empty (p : ascii → bool) (s : string) :
  strip_by p s = EmptyString → all_chars p s = true.
Proof.
  intros H. apply lstrip_by_empty in H.
  apply rstrip_by_empty.
  destruct (rstrip_by p s) as [|c r] eqn:Hr; [done|].
  pose proof (rstrip_by_ends p s) as He. rewrite Hr in He.
  rewrite all_chars_ends in He; done.
Qed.

Lemma ends_in_app (p : ascii → bool) (pre : string) (c : ascii) (e : string) :
  p c = true → all_chars p e = true → ends_in p (pre +:+ String c e) = true.
Proof.
  intros Hc He.
  assert (Hce : ends_in p (String c e) = true).
  { apply all_chars_ends; [|done]. simpl. by rewrite Hc. }
  induction pre as [|c' pre IH]; [done|].
  change (String c' pre +:+ String c e) with (String c' (pre +:+ String c e)).
  simpl ends_in. destruct (pre +:+ String c e) eqn:Happ; [|done].
  by destruct pre.
Qed.

(** A field that follows a white space character in a stripped line is
    not blank. *)
Lemma field_after_space_not_blank (line pre : string) (c : ascii) (e : string) :
  strip line = pre +:+ String c e → is_space c = true →
  is_empty (strip e) = false.
Proof.
  intros Hline Hc.
  destruct (strip e) eqn:He; [|done]. exfalso.
  apply strip_by_empty in He.
  pose proof (strip_by_ends is_space line) as Hends.
  fold (strip line) in Hends. rewrite Hline in Hends.
  by rewrite ends_in_app in Hends.
Qed.

Lemma split_char_zero (sep : ascii) (s : string) :
  split_char sep (Some 0) s = [s].
Proof.
  induction s as [|c s IH]; simpl; [done|].
  rewrite IH. by destruct (Ascii.eqb c sep).
Qed.

(** The field of index [maxsplit], when the split gives one, is the rest
    of the text after a separator. *)
Lemma split_char_last (sep : ascii) (s : string) (n : nat) (e : string) :
  split_char sep (Some (S n)) s !! S n = Some e →
  ∃ pre, s = pre +:+ String sep e.
Proof.
  revert n. induction s as [|c s IH]; intros n; simpl; [done|].
  destruct (Ascii.eqb_spec c sep) as [->|Hne].
  - simpl. destruct n as [|n].
    + rewrite split_char_zero. intros [= ->]. by exists EmptyString.
    + intros (pre & ->)%IH. by exists (String sep pre).
  - destruct (split_char sep (Some (S n)) s) as [|piece rest] eqn:Hs; simpl; [done|].
    intros H. destruct (IH n) as (pre & ->); [by rewrite Hs|].
    by exists (String c pre).
Qed.

Lemma re_split_ws_from_zero (s : string) :
  re_split_ws_from 0 false s = [s].
Proof.
  induction s as [|c s IH]; simpl; [done|].
  rewrite andb_false_r, IH. by destruct (is_space c).
Qed.

Lemma re_split_ws_from_last (n : nat) (in_run : bool) (s e : string) :
  re_split_ws_from n in_run s !! n = Some e →
  (∃ pre c, s = pre +:+ String c e ∧ is_space c = true) ∨ (n = 0 ∧ s = e).
Proof.
  revert n in_run. induction s as [|c s IH]; intros n in_run; simpl.
  - destruct n; simpl; [|done]. intros [= <-]. by right.
  - destruct (is_space c) eqn:Hc; simpl.
    + destruct in_run; simpl.
      * intros [(pre & c' & -> & Hc')|[-> ->]]%IH; left.
        -- by exists (String c pre), c'.
        -- by exists EmptyString, c.
      * destruct n as [|n]; simpl.
        -- rewrite re_split_ws_from_zero. simpl. intros [= <-]. by right.
        -- intros [(pre & c' & -> & Hc')|[-> ->]]%IH; left.
           ++ by exists (String c pre), c'.
           ++ by exists EmptyString, c.
    + destruct (re_split_ws_from n false s) as [|piece rest] eqn:Hs.
      * destruct n; simpl; [|done]. rewrite re_split_ws_from_zero in Hs. done.
      * destruct n as [|n]; simpl.
        -- rewrite re_split_ws_from_zero in Hs. injection Hs as <- <-.
           intros [= <-]. by right.
        -- intros H. destruct (IH (S n) false) as [(pre & c' & -> & Hc')|[? _]];
             [by rewrite Hs| |done].
           left. by exists (String c pre), c'.
Qed.

(** ** Form A parser: the record in progress at the end of the input *)

Lemma getitem_Ok {A} (l : list A) (i : nat) (a : A) :
  getitem l i = Ok a → l !! i = Some a.
Proof. unfold getitem. by destruct (l !! i); intros [= ->]. Qed.

Ltac next_item :=
  match goal with
  | |- context [getitem ?l ?i] =>
      let H := fresh "Hitem" in
      destruct (getitem l i) eqn:H; simpl; [|discriminate]
  end.

(** A header line closes the record in progress, if there is one, and
    opens a record whose text is not empty. *)
Lemma step_a_header (len : nat) (st : state_a) (index : nat) (line : string)
    (st' : state_a) :
  end_flag st = false → is_header line = true →
  step_a len st index line = Ok st' →
  list_a st' = list_a (flush_a st) ∧ is_empty (request_temp st') = false
  ∧ end_flag st' = false.
Proof.
  destruct st as [d l r e f]. simpl. intros -> Hh. unfold step_a, is_header in *.
  simpl dict_temp; simpl list_a; simpl request_temp; simpl end_flag; simpl endflag.
  assert (Hflush : ∀ b, list_a (flush_a (StateA d l r false b))
                        = list_a (flush_a (StateA d l r false f))
                        ∧ end_flag (flush_a (StateA d l r false b)) = false).
  { intros b. unfold flush_a. simpl. by destruct (is_empty r). }
  set (st1 := if index =? len - 1 then StateA d l r false true
              else StateA d l r false f).
  assert (Hst1 : list_a (flush_a st1) = list_a (flush_a (StateA d l r false f))
                 ∧ end_flag (flush_a st1) = false ∧ end_flag st1 = false).
  { unfold st1. destruct (index =? len - 1); repeat split; try apply Hflush; done. }
  destruct Hst1 as (Hl & He & He1). rewrite He1. clearbody st1.
  destruct (re_search pattern_with_job_id (strip line)) eqn:Hn.
  - simpl. repeat next_item. intros [= <-]. simpl.
    split; [done|]. split; [|done].
    apply getitem_Ok in Hitem3.
    apply re_split_ws_from_last in Hitem3 as [(pre & c & Hs & Hc)|[? _]]; [|done].
    by apply (field_after_space_not_blank line pre c).
  - simpl in Hh. rewrite Hh. simpl. repeat next_item. intros [= <-]. simpl.
    split; [done|]. split; [|done].
    apply getitem_Ok in Hitem2.
    apply split_char_last in Hitem2 as (pre & Hs).
    by apply (field_after_space_not_blank line pre " "%char).
Qed.

(** Any other line leaves the list as it is, and leaves a record open or
    none open as before. *)
Lemma step_a_other (len : nat) (st : state_a) (index : nat) (line : string)
    (st' : state_a) :
  end_flag st = false → is_header line = false →
  step_a len st index line = Ok st' →
  list_a st' = list_a st
  ∧ is_empty (request_temp st') = is_empty (request_temp st)
  ∧ end_flag st' = false.
Proof.
  destruct st as [d l r e f]. simpl. intros -> Hh. unfold step_a, is_header in *.
  apply orb_false_elim in Hh as [-> ->]. simpl.
  destruct (index =? len - 1); simpl;
    (destruct r; simpl; intros [= <-]; done).
Qed.

(** In every state the loop reaches, [end_flag] is still [False]; the
    list holds one record for each header read but the last one, whose
    record is in progress. *)
Lemma loop_a_invariant (len : nat) (lines : list string) (index : nat)
    (st st' : state_a) (seen : nat) :
  end_flag st = false →
  length (list_a st) = seen - 1 →
  is_empty (request_temp st) = (seen =? 0) →
  loop_a len index lines st = Ok st' →
  end_flag st' = false
  ∧ length (list_a st') = seen + headers lines - 1
  ∧ is_empty (request_temp st') = (seen + headers lines =? 0).
Proof.
  revert index st seen.
  induction lines as [|line rest IH]; intros index st seen He Hl Hr; simpl.
  - intros [= <-]. unfold headers. simpl. by rewrite Nat.add_0_r.
  - destruct (step_a len st index line) as [st1|] eqn:Hstep; simpl; [|discriminate].
    intros Hloop. unfold headers. simpl.
    destruct (is_header line) eqn:Hh.
    + destruct (step_a_header _ _ _ _ _ He Hh Hstep) as (Hl1 & Hr1 & He1).
      simpl. rewrite Nat.add_succ_r, <- Nat.add_succ_l.
      apply (IH (S index) st1 (S seen)); [done| |done|done].
      rewrite Hl1. unfold flush_a. rewrite Hr.
      destruct seen as [|seen]; simpl; [lia|]. rewrite length_app. simpl. lia.
    + destruct (step_a_other _ _ _ _ _ He Hh Hstep) as (Hl1 & Hr1 & He1).
      apply (IH (S index) st1 seen); [done|by rewrite Hl1|by rewrite Hr1|done].
Qed.

(** [endflag], the name assigned on the last line, is [True] when the
    loop ends. *)
Lemma step_a_endflag (len : nat) (st : state_a) (index : nat) (line : string)
    (st' : state_a) :
  step_a len st index line = Ok st' →
  endflag st' = (index =? len - 1) || endflag st.
Proof.
  destruct st as [d l r e f]. unfold step_a.
  simpl dict_temp; simpl list_a; simpl request_temp; simpl end_flag; simpl endflag.
  set (st1 := if index =? len - 1 then StateA d l r e true else StateA d l r e f).
  assert (Hf : endflag st1 = (index =? len - 1) || f
               ∧ endflag (flush_a st1) = (index =? len - 1) || f).
  { unfold st1, flush_a. destruct (index =? len - 1); simpl;
      by destruct (is_empty r). }
  destruct Hf as [Hf1 Hf2].
  assert (He : end_flag st1 = e) by (unfold st1; by destruct (index =? len - 1)).
  assert (Hr : request_temp st1 = r) by (unfold st1; by destruct (index =? len - 1)).
  rewrite He, Hr. clearbody st1.
  destruct (re_search pattern_with_job_id (strip line)); simpl.
  - repeat next_item. by intros [= <-].
  - destruct (re_search pattern_without_job_id (strip line)); simpl.
    + repeat next_item. by intros [= <-].
    + destruct e; simpl.
      * by intros [= <-].
      * destruct (is_empty r); simpl; intros [= <-]; done.
Qed.

Lemma loop_a_endflag (len : nat) (lines : list string) (index : nat)
    (st st' : state_a) :
  loop_a len index lines st = Ok st' →
  lines ≠ [] → index + length lines = len →
  endflag st' = true.
Proof.
  revert index st.
  induction lines as [|line rest IH]; intros index st; simpl; [done|].
  destruct (step_a len st index line) as [st1|] eqn:Hstep; simpl; [|discriminate].
  intros Hloop _ Hlen. apply step_a_endflag in Hstep.
  destruct rest as [|line' rest].
  - simpl in Hloop. injection Hloop as <-. rewrite Hstep.
    replace (index =? len - 1) with true; [done|].
    symmetry. apply Nat.eqb_eq. simpl in Hlen. lia.
  - apply (IH (S index) st1); [done|done|simpl in *; lia].
Qed.

Lemma split_char_not_nil (sep : ascii) (maxsplit : option nat) (s : string) :
  split_char sep maxsplit s ≠ [].
Proof.
  destruct s as [|c s]; simpl; [done|].
  destruct (Ascii.eqb c sep), maxsplit as [[|n]|];
    try done; by destruct (split_char sep _ s).
Qed.

(** C4. Whenever the loop of [parse_result_a] ends, in a state [st]: the
    function returns the list of [st] as it is; [end_flag], the flag the
    loop tests, is still [False], while [endflag], the name assigned on the
    last line, is [True]; a turn of the loop changes the list only on a
    line that matches a header pattern; so the list holds one record fewer
    than the headers read, and when there was a header the record of the
    last one is still in progress in [st], its text not empty, and is not
    in the list returned. *)
Theorem parse_result_a_drops_open_record (result : string) (st : state_a) :
  run_a result = Ok st →
  parse_result_a result = Ok (list_a st)
  ∧ end_flag st = false
  ∧ endflag st = true
  ∧ (∀ len st0 index line st1,
       end_flag st0 = false → step_a len st0 index line = Ok st1 →
       list_a st1 ≠ list_a st0 → is_header line = true)
  ∧ length (list_a st) = headers (split_char "010" None result) - 1
  ∧ (0 < headers (split_char "010" None result) →
     is_empty (request_temp st) = false
     ∧ length (list_a st) < headers (split_char "010" None result)).
Proof.
  intros Hrun.
  split; [unfold parse_result_a; by rewrite Hrun|].
  unfold run_a in Hrun.
  destruct (loop_a_invariant _ _ 0 init_a st 0 eq_refl eq_refl eq_refl Hrun)
    as (He & Hl & Hr).
  simpl in Hl, Hr.
  split; [exact He|].
  split; [by apply (loop_a_endflag _ _ _ _ _ Hrun); [apply split_char_not_nil|]|].
  split.
  { intros len st0 index line st1 He0 Hstep Hne.
    destruct (is_header line) eqn:Hh; [done|].
    by destruct (step_a_other _ _ _ _ _ He0 Hh Hstep) as (? & _). }
  split; [exact Hl|].
  intros Hpos. rewrite Hr. split; [|lia].
  apply Nat.eqb_neq. lia.
Qed.

Lemma parse_result_a_drops_open_record_witness :
  parse_result_a
    ("215 R MV27 STC01537 *215 HWSC0000I" +:+ String "010" "216 R MV29 *216 DFS3139I")
  = Ok (list_a
          (StateA
             (<["number" := "216"]> (<["type" := "R"]> {[ "system" := "MV29" ]}))
             [ <["message_text" := "*215 HWSC0000I"]>
                 (<["number" := "215"]> (<["type" := "R"]> (<["system" := "MV27"]>
                    {[ "job_id" := "STC01537" ]}))) ]
             "*216 DFS3139I" false true)).
Proof.
  apply parse_result_a_drops_open_record. vm_compute. reflexivity.
Defined.

(** The header on the last line, with no line after it, gives no record. *)
Lemma parse_result_a_single_header :
  parse_result_a "215 R MV27 STC01537 *215 HWSC0000I" = Ok [].
Proof. vm_compute. reflexivity. Qed.

(** ** The hypotheses of the filter theorem hold in the module

    The records [create_merge_list] builds have the three attributes, and a
    criterion that passed validation is literal text. *)

Lemma flush_a_system (st : state_a) :
  Forall (λ dict : record, is_Some (dict !! "system")) (list_a st) →
  (is_empty (request_temp st) = false → is_Some (dict_temp st !! "system")) →
  Forall (λ dict : record, is_Some (dict !! "system")) (list_a (flush_a st))
  ∧ (is_empty (request_temp (flush_a st)) = false →
     is_Some (dict_temp (flush_a st) !! "system")).
Proof.
  intros Hl Hd. unfold flush_a.
  destruct (is_empty (request_temp st)) eqn:Hr; simpl;
    [split; [done|by rewrite Hr]|].
  split; [|done].
  apply Forall_app. split; [done|]. constructor; [|constructor].
  rewrite lookup_insert_ne by done. by apply Hd.
Qed.

Lemma step_a_system (len : nat) (st : state_a) (index : nat) (line : string)
    (st' : state_a) :
  Forall (λ dict : record, is_Some (dict !! "system")) (list_a st) →
  (is_empty (request_temp st) = false → is_Some (dict_temp st !! "system")) →
  step_a len st index line = Ok st' →
  Forall (λ dict : record, is_Some (dict !! "system")) (list_a st')
  ∧ (is_empty (request_temp st') = false → is_Some (dict_temp st' !! "system")).
Proof.
  destruct st as [d l r e f]. unfold step_a.
  simpl dict_temp; simpl list_a; simpl request_temp; simpl end_flag; simpl endflag.
  intros Hl Hd.
  set (st1 := if index =? len - 1 then StateA d l r e true else StateA d l r e f).
  assert (H1 : list_a st1 = l ∧ request_temp st1 = r ∧ dict_temp st1 = d
               ∧ end_flag st1 = e)
    by (unfold st1; by destruct (index =? len - 1)).
  destruct H1 as (Hl1 & Hr1 & Hd1 & He1).
  destruct (flush_a_system st1) as [Hfl Hfd];
    [by rewrite Hl1|by rewrite Hr1, Hd1|].
  rewrite He1, Hr1, Hl1, Hd1. clearbody st1.
  destruct (re_search pattern_with_job_id (strip line)); simpl.
  - repeat next_item. intros [= <-]. simpl. split; [done|]. intros _.
    rewrite lookup_insert_ne, lookup_insert_ne, lookup_insert_eq by done. eauto.
  - destruct (re_search pattern_without_job_id (strip line)); simpl.
    + repeat next_item. intros [= <-]. simpl. split; [done|]. intros _.
      rewrite lookup_insert_ne, lookup_insert_ne, lookup_insert_eq by done. eauto.
    + destruct e; simpl.
      * by intros [= <-].
      * destruct (is_empty r) eqn:Hr; simpl; intros [= <-]; simpl;
          rewrite ?Hl1, ?Hr1, ?Hd1.
        -- split; [done|]. by rewrite Hr.
        -- split; [done|]. intros _. by apply Hd.
Qed.

Lemma loop_a_system (len : nat) (lines : list string) (index : nat)
    (st st' : state_a) :
  Forall (λ dict : record, is_Some (dict !! "system")) (list_a st) →
  (is_empty (request_temp st) = false → is_Some (dict_temp st !! "system")) →
  loop_a len index lines st = Ok st' →
  Forall (λ dict : record, is_Some (dict !! "system")) (list_a st').
Proof.
  revert index st.
  induction lines as [|line rest IH]; intros index st Hl Hd; simpl.
  - by intros [= <-].
  - destruct (step_a len st index line) as [st1|] eqn:Hstep; simpl; [|discriminate].
    destruct (step_a_system _ _ _ _ _ Hl Hd Hstep) as [Hl1 Hd1].
    by apply IH.
Qed.

(** Every record of Form A has a [system]. *)
Lemma parse_result_a_system (result : string) (records : list record) :
  parse_result_a result = Ok records →
  Forall (λ dict : record, is_Some (dict !! "system")) records.
Proof.
  unfold parse_result_a, run_a.
  destruct (loop_a _ 0 _ init_a) as [st|] eqn:Hloop; simpl; [|discriminate].
  intros [= <-]. eapply (loop_a_system _ _ _ init_a); [constructor|done|exact Hloop].
Qed.

Lemma loop_b_fields (lines : list string) (list_b records : list record) :
  Forall (λ dict : record,
            is_Some (dict !! "jobname") ∧ is_Some (dict !! "message_id")) list_b →
  loop_b lines list_b = Ok records →
  Forall (λ dict : record,
            is_Some (dict !! "jobname") ∧ is_Some (dict !! "message_id")) records.
Proof.
  revert list_b.
  induction lines as [|line rest IH]; intros list_b Hb; simpl; [by intros [= <-]|].
  destruct (step_b list_b line) as [list_b'|] eqn:Hstep; simpl; [|discriminate].
  apply IH. unfold step_b in Hstep.
  destruct (re_search pattern_with_jobname (strip line)); [|by injection Hstep as <-].
  revert Hstep. repeat next_item. intros [= <-].
  apply Forall_app. split; [done|]. constructor; [|constructor].
  rewrite lookup_insert_ne, lookup_insert_eq by done.
  rewrite lookup_insert_ne, lookup_insert_ne, lookup_insert_eq by done. eauto.
Qed.

(** Every record of Form B has a [jobname] and a [message_id]. *)
Lemma parse_result_b_fields (result : string) (records : list record) :
  parse_result_b result = Ok records →
  Forall (λ dict : record,
            is_Some (dict !! "jobname") ∧ is_Some (dict !! "message_id")) records.
Proof. apply loop_b_fields. constructor. Qed.

Lemma merge_list_complete (list_a list_b : list record) :
  Forall (λ dict : record, is_Some (dict !! "system")) list_a →
  Forall (λ dict : record,
            is_Some (dict !! "jobname") ∧ is_Some (dict !! "message_id")) list_b →
  Forall complete (merge_list list_a list_b).
Proof.
  rewrite !Forall_forall. intros Ha Hb dict_z Hz.
  apply merge_list_elem in Hz as (dict_a & dict_b & Hina & Hinb & _ & ->).
  destruct (Hb _ Hinb) as [[j Hj] [m Hm]]. destruct (Ha _ Hina) as [s Hs].
  unfold complete. rewrite !overlay_lookup, Hj, Hm, Hs.
  destruct (dict_b !! "system"); eauto.
Qed.

(** The merged list the query builds is made of complete records. *)
Lemma create_merge_list_complete (OperatorCmd_execute : string → Z * string)
    (merged_list : list record) :
  create_merge_list OperatorCmd_execute = Ok merged_list →
  Forall complete merged_list.
Proof.
  unfold create_merge_list.
  destruct (execute_command _ "d r,a,s") as [message_a|]; simpl; [|discriminate].
  destruct (execute_command _ "d r,a,jn") as [message_b|]; simpl; [|discriminate].
  destruct (parse_result_a message_a) as [la|] eqn:Ha; simpl; [|discriminate].
  destruct (parse_result_b message_b) as [lb|] eqn:Hb; simpl; [|discriminate].
  intros [= <-].
  apply merge_list_complete;
    [by apply (parse_result_a_system message_a)
    |by apply (parse_result_b_fields message_b)].
Qed.

End OperatorActionSpec.

(* ===================================================================== *)
(** * Further properties of zos_operator_outstanding_action *)
(* ===================================================================== *)

Module OperatorActionMore.
Import Py OperatorAction OperatorActionSpec.

(** ** Validation of the attribute criteria *)

(** What [^[a-zA-Z0-9]{1,8}$] matches: one to eight letters and digits,
    and the same followed by one line feed. *)
Lemma name_regex_spec (value : string) :
  re_search name_regex value = true
  ↔ ∃ name, (value = name ∨ value = name +:+ String "010" EmptyString)
      ∧ all_chars is_alnum name = true
      ∧ 1 ≤ String.length name ≤ 8.
Proof.
  unfold re_search, match_here. simpl. split.
  - intros (pre & rest & -> & Hall & Hmin & Hmax & Hrest)%match_rep_sound.
    exists pre. split; [|split; [done|split; [done|by apply Hmax]]].
    destruct rest as [|c [|c' rest]]; [left| |done].
    + apply append_empty_r.
    + right. by apply Ascii.eqb_eq in Hrest as ->.
  - intros (name & Hv & Hall & Hmin & Hmax).
    assert (Hv' : ∃ rest, value = name +:+ rest ∧ at_eol rest = true).
    { destruct Hv as [->| ->]; [exists EmptyString|by eexists].
      split; [|done]. symmetry. apply append_empty_r. }
    destruct Hv' as (rest & -> & Hrest).
    apply match_rep_complete; [done|done| |done]. by intros m [= <-].
Qed.

Lemma lstrip_by_id (p : ascii → bool) (s : string) :
  (∀ c s', s = String c s' → p c = false) → lstrip_by p s = s.
Proof. destruct s as [|c s]; simpl; [done|]. intros H. by rewrite (H c s). Qed.

Lemma rstrip_by_id (p : ascii → bool) (s : string) :
  all_chars (λ c, negb (p c)) s = true → rstrip_by p s = s.
Proof.
  induction s as [|c s IH]; simpl; [done|].
  destruct (p c); simpl; [done|]. intros H. by rewrite IH.
Qed.

(** Stripping leaves a text alone when none of its characters is one to
    strip. *)
Lemma strip_by_id (p : ascii → bool) (s : string) :
  all_chars (λ c, negb (p c)) s = true → strip_by p s = s.
Proof.
  intros H. unfold strip_by. rewrite (rstrip_by_id _ _ H).
  apply lstrip_by_id. intros c s' ->. simpl in H. by destruct (p c).
Qed.

Lemma all_chars_impl (p q : ascii → bool) (s : string) :
  (∀ c, p c = true → q c = true) → all_chars p s = true → all_chars q s = true.
Proof.
  intros Hpq. induction s as [|c s IH]; simpl; [done|].
  destruct (p c) eqn:Hc; [|done]. rewrite (Hpq _ Hc). exact IH.
Qed.

Lemma all_chars_app (p : ascii → bool) (s t : string) :
  all_chars p (s +:+ t) = all_chars p s && all_chars p t.
Proof.
  induction s as [|c s IH]; [done|].
  change (String c s +:+ t) with (String c (s +:+ t)). simpl.
  destruct (p c); [exact IH|done].
Qed.

Lemma alnum_not_star (c : ascii) :
  is_alnum c = true → negb (Ascii.eqb "*" c) = true.
Proof. destruct c as [[] [] [] [] [] [] [] []]; vm_compute; done. Qed.

(** A text the name pattern matches has no asterisk. *)
Lemma name_regex_no_star (value : string) :
  re_search name_regex value = true →
  all_chars (λ c, negb (Ascii.eqb "*" c)) value = true.
Proof.
  intros (name & Hv & Hall & _)%name_regex_spec.
  pose proof (all_chars_impl _ _ _ alnum_not_star Hall) as Hname.
  destruct Hv as [->| ->]; [done|].
  rewrite all_chars_app, Hname. reflexivity.
Qed.

Lemma system_type_Ok (arg_val value : string) :
  system_type arg_val = Ok value →
  value = strip_star arg_val ∧ re_search name_regex value = true.
Proof.
  unfold system_type, validate_parameters_based_on_regex.
  destruct (negb (is_empty arg_val) && negb (String.eqb arg_val "*")) eqn:Hguard.
  - destruct (re_search name_regex (strip_star arg_val)) eqn:Hre; simpl;
      [|discriminate]. by intros [= <-].
  - destruct (re_search name_regex arg_val) eqn:Hre; simpl; [|discriminate].
    intros [= <-]. exfalso.
    apply andb_false_iff in Hguard as [Hg|Hg]; apply negb_false_iff in Hg.
    + by destruct arg_val.
    + apply String.eqb_eq in Hg as ->. discriminate.
Qed.

(** X1. A criterion that [system_type] accepts is returned stripped of
    the asterisks at its two ends, is made of one to eight letters and
    digits (one line feed may follow them), is accepted alike by
    [jobname_type] and [message_id_type], and is a fixed point of the
    validator: validated again, it is returned as it is. *)
Theorem system_type_accepted (arg_val value : string) :
  system_type arg_val = Ok value →
  value = strip_star arg_val
  ∧ (∃ name, (value = name ∨ value = name +:+ String "010" EmptyString)
       ∧ all_chars is_alnum name = true ∧ 1 ≤ String.length name ≤ 8)
  ∧ jobname_type arg_val = Ok value
  ∧ message_id_type arg_val = Ok value
  ∧ system_type value = Ok value.
Proof.
  intros Hok. destruct (system_type_Ok _ _ Hok) as [Hv Hre].
  split; [done|]. split; [by apply name_regex_spec|].
  split; [exact Hok|]. split; [exact Hok|].
  unfold system_type, validate_parameters_based_on_regex.
  assert (Hid : strip_star value = value)
    by by apply strip_by_id, name_regex_no_star.
  destruct (negb (is_empty value) && negb (String.eqb value "*"));
    rewrite ?Hid, Hre; reflexivity.
Qed.

Lemma system_type_accepted_witness :
  system_type "*mv2h*" = Ok "mv2h" ∧ system_type "mv2h" = Ok "mv2h".
Proof.
  split.
  - reflexivity.
  - apply (system_type_accepted "*mv2h*" "mv2h"). reflexivity.
Defined.

Lemma all_chars_rstrip_by (p : ascii → bool) (s : string) :
  all_chars p s = true → rstrip_by p s = EmptyString.
Proof.
  induction s as [|c s IH]; simpl; [done|].
  destruct (p c); [|done]. intros H. by rewrite (IH H).
Qed.

(** X2. A criterion made of asterisks only is always refused: the single
    wildcard "*", which the validator leaves unstripped, is refused under
    its own name, and the empty text and any longer run of asterisks are
    refused as the empty text. *)
Theorem system_type_asterisks_refused (arg_val : string) :
  all_chars (Ascii.eqb "*") arg_val = true →
  system_type arg_val
  = Raise (ValidationError (if String.eqb arg_val "*" then "*" else EmptyString))
  ∧ jobname_type arg_val = system_type arg_val
  ∧ message_id_type arg_val = system_type arg_val.
Proof.
  intros Hall. split; [|done].
  unfold system_type, validate_parameters_based_on_regex.
  destruct (String.eqb_spec arg_val "*") as [->|Hne]; [reflexivity|].
  destruct arg_val as [|c s]; [reflexivity|]. simpl negb. simpl andb.
  unfold strip_star, strip_by. by rewrite (all_chars_rstrip_by _ _ Hall).
Qed.

Lemma system_type_asterisks_refused_witness :
  system_type "**" = Raise (ValidationError EmptyString).
Proof. apply (system_type_asterisks_refused "**"). reflexivity. Defined.

(** ** What the filter returns *)

Lemma handle_conditions_loop_elem (regex : pattern) (key : string)
    (rows newlist out : list record) (dict : record) :
  handle_conditions_loop regex key rows newlist = Ok out →
  dict ∈ out → dict ∈ newlist ∨ dict ∈ rows.
Proof.
  revert newlist.
  induction rows as [|row rest IH]; intros newlist; simpl.
  - intros [= <-]. by left.
  - destruct (row !! key) as [field|]; [|discriminate].
    intros Hloop Hin. destruct (IH _ Hloop Hin) as [Hnew|Hrest].
    + destruct (re_search regex field); [|by left].
      apply elem_of_app in Hnew as [?|Hs%list_elem_of_singleton];
        [by left|subst; right; by left].
    + right. by right.
Qed.

Lemma handle_conditions_elem (rows : list record) (key value : string)
    (out : list record) (dict : record) :
  handle_conditions rows key value = Ok out → dict ∈ out → dict ∈ rows.
Proof.
  unfold handle_conditions. destruct (re_compile value) as [regex|]; simpl;
    [|discriminate].
  intros Hloop Hin.
  destruct (handle_conditions_loop_elem _ _ _ _ _ _ Hloop Hin) as [Hnil|?];
    [by apply not_elem_of_nil in Hnil|done].
Qed.

Lemma filter_step_elem (rows : list record) (key : string)
    (criterion : option string) (out : list record) (dict : record) :
  match criterion with
  | Some value => handle_conditions rows key value
  | None => Ok rows
  end = Ok out →
  dict ∈ out → dict ∈ rows.
Proof.
  destruct criterion as [value|]; [apply handle_conditions_elem|].
  by intros [= <-].
Qed.

(** X3. Whatever the criteria, a list that [filter_requests] returns is
    made of records of the merged list: the filter selects, it builds no
    record and changes none. *)
Theorem filter_requests_selects (merged_list : list record) (p : params)
    (found : list record) :
  filter_requests merged_list p = Ok found →
  ∀ dict, dict ∈ found → dict ∈ merged_list.
Proof.
  unfold filter_requests. intros Hf dict Hin.
  destruct (match condition_of (system p) with
            | Some v => handle_conditions _ "system" v
            | None => Ok _
            end) as [l1|] eqn:H1; simpl in Hf; [|discriminate].
  destruct (match condition_of (jobname p) with
            | Some v => handle_conditions l1 "jobname" v
            | None => Ok l1
            end) as [l2|] eqn:H2; simpl in Hf; [|discriminate].
  destruct (match condition_of (message_id p) with
            | Some v => handle_conditions l2 "message_id" v
            | None => Ok l2
            end) as [l3|] eqn:H3; simpl in Hf; [|discriminate].
  injection Hf as <-.
  apply (number_selection_elem _ (request_number_list p)).
  apply (filter_step_elem _ _ _ _ _ H1).
  apply (filter_step_elem _ _ _ _ _ H2).
  by apply (filter_step_elem _ _ _ _ _ H3).
Qed.

Lemma filter_requests_selects_witness :
  (<["number" := "216"]> {[ "system" := "MV29" ]} : record)
  ∈ [ <["number" := "215"]> {[ "system" := "MV27" ]};
      (<["number" := "216"]> {[ "system" := "MV29" ]} : record) ].
Proof.
  apply (filter_requests_selects _ (Params [PyStr "216"] (Some "mv2*") None None)
           [ <["number" := "216"]> {[ "system" := "MV29" ]} ]).
  - vm_compute. reflexivity.
  - by left.
Defined.

Lemma handle_conditions_loop_missing (regex : pattern) (key : string)
    (rows newlist : list record) :
  Exists (λ dict : record, dict !! key = None) rows →
  handle_conditions_loop regex key rows newlist = Raise TypeError.
Proof.
  intros Hex. revert newlist.
  induction rows as [|row rest IH]; intros newlist; [by inversion Hex|].
  simpl. destruct (row !! key) as [field|] eqn:Hrow; [|done].
  apply IH. inversion Hex as [? ? Hnone|]; [congruence|done].
Qed.

(** X4. A record without the attribute a filter reads makes the filter
    raise: when the criterion is literal text and some record of the list
    has no such field, [handle_conditions] raises [TypeError], whatever the
    other records are; and so does [filter_requests] for a [system]
    criterion when "all" is requested and a merged record has no
    [system]. *)
Theorem handle_conditions_missing_field (rows : list record) (key value : string) :
  has_meta value = false →
  Exists (λ dict : record, dict !! key = None) rows →
  handle_conditions rows key value = Raise TypeError
  ∧ ∀ criterion message_id jobname,
      key = "system" → condition_of (Some criterion) = Some value →
      filter_requests rows (Params [PyStr "all"] (Some criterion) message_id jobname)
      = Raise TypeError.
Proof.
  intros Hlit Hex.
  assert (Hh : handle_conditions rows key value = Raise TypeError).
  { unfold handle_conditions. rewrite (re_compile_literal _ Hlit). simpl.
    by apply handle_conditions_loop_missing. }
  split; [exact Hh|].
  intros criterion mid jn -> Hc. unfold filter_requests. simpl system.
  rewrite Hc. change (number_selection rows _) with rows.
  by rewrite Hh.
Qed.

Lemma handle_conditions_missing_field_witness :
  handle_conditions
    [ <["number" := "215"]> {[ "system" := "MV27" ]}; {[ "number" := "216" ]} ]
    "system" "MV2"
  = Raise TypeError.
Proof.
  apply handle_conditions_missing_field; [reflexivity|].
  apply Exists_cons_tl, Exists_cons_hd. vm_compute. reflexivity.
Defined.

(** ** Number selection *)

Lemma option_list_length {A} (o : option A) : length (option_list o) ≤ 1.
Proof. destruct o; simpl; lia. Qed.

Lemma bind_length_le {A B} (f : A → list B) (l : list A) :
  (∀ a, length (f a) ≤ 1) → length (l ≫= f) ≤ length l.
Proof.
  intros Hf. induction l as [|a l IH]; [done|].
  rewrite bind_cons, length_app. specialize (Hf a). simpl. lia.
Qed.

(** X5. When no entry of the request list is the word "all", the
    selection is made request by request: the selection for two lists put
    end to end is the two selections put end to end, so a number requested
    twice is returned twice, and the selection never holds more records
    than numbers were requested. *)
Theorem number_selection_by_request (merged_list : list record)
    (numbers1 numbers2 : list scalar) :
  existsb is_all (numbers1 ++ numbers2) = false →
  number_selection merged_list (numbers1 ++ numbers2)
  = number_selection merged_list numbers1 ++ number_selection merged_list numbers2
  ∧ length (number_selection merged_list (numbers1 ++ numbers2))
    ≤ length (numbers1 ++ numbers2).
Proof.
  intros Hall. rewrite !number_selection_spec, Hall.
  rewrite existsb_app in Hall. apply orb_false_elim in Hall as [-> ->].
  split; [apply bind_app|].
  apply bind_length_le. intros number. apply option_list_length.
Qed.

Lemma number_selection_by_request_witness :
  number_selection
    [ <["number" := "215"]> {[ "system" := "MV27" ]};
      <["number" := "216"]> {[ "system" := "MV29" ]} ]
    ([PyStr "216"; PyStr "300"] ++ [PyInt 216])
  = [ <["number" := "216"]> {[ "system" := "MV29" ]} ]
    ++ [ <["number" := "216"]> {[ "system" := "MV29" ]} ].
Proof.
  etrans.
  - apply number_selection_by_request. reflexivity.
  - vm_compute. reflexivity.
Defined.

(** ** Merger: sizes and unique numbers *)

Lemma partners_unique (dict_a : record) (list_b : list record) :
  NoDup (numbers_of list_b) → length (partners dict_a list_b) ≤ 1.
Proof.
  unfold partners, numbers_of.
  induction list_b as [|dict_b rest IH]; [simpl; lia|].
  rewrite fmap_cons. intros [Hnotin Hnd]%NoDup_cons.
  destruct (decide (dict_a !! "number" = dict_b !! "number")) as [Heq|Hne].
  - rewrite filter_cons_True by done.
    assert (Hnil : filter (λ d : record, dict_a !! "number" = d !! "number") rest = []).
    { destruct (filter _ rest) as [|d l'] eqn:Hf; [done|]. exfalso.
      assert (Hd : d ∈ filter (λ d : record, dict_a !! "number" = d !! "number") rest)
        by (rewrite Hf; by left).
      apply list_elem_of_filter in Hd as [Hd' Hd].
      apply Hnotin, list_elem_of_fmap. exists d. split; [congruence|done]. }
    rewrite Hnil. simpl. lia.
  - rewrite filter_cons_False by done. by apply IH.
Qed.

Lemma overlay_number (dict_a dict_b : record) :
  dict_a !! "number" = dict_b !! "number" →
  overlay dict_a dict_b !! "number" = dict_a !! "number".
Proof.
  intros Heq. rewrite overlay_lookup. rewrite <- Heq.
  by destruct (dict_a !! "number").
Qed.

Lemma numbers_of_partners (dict_a : record) (list_b : list record) :
  NoDup (numbers_of list_b) →
  numbers_of (overlay dict_a <$> partners dict_a list_b) = []
  ∨ numbers_of (overlay dict_a <$> partners dict_a list_b) = [dict_a !! "number"].
Proof.
  intros Hnd. pose proof (partners_unique dict_a _ Hnd) as Hlen.
  destruct (partners dict_a list_b) as [|dict_b [|? ?]] eqn:Hp;
    [by left| |simpl in Hlen; lia].
  right. unfold numbers_of. simpl. f_equal. apply overlay_number.
  assert (Hin : dict_b ∈ partners dict_a list_b) by (rewrite Hp; by left).
  unfold partners in Hin. by apply list_elem_of_filter in Hin as [? _].
Qed.

Lemma merge_list_bind (list_a list_b : list record) :
  merge_list list_a list_b
  = list_a ≫= λ dict_a, overlay dict_a <$> partners dict_a list_b.
Proof. unfold merge_list. by rewrite merge_outer_spec. Qed.

(** X6. The merger keeps request numbers unique: when no two records of
    Form B carry the same number, every record of Form A gives at most one
    merged record, so the merged list is no longer than the list of Form A
    and its numbers are, in order, numbers of Form A; when the numbers of
    Form A are pairwise distinct too, so are those of the merged list. *)
Theorem merge_list_unique_numbers (list_a list_b : list record) :
  NoDup (numbers_of list_b) →
  length (merge_list list_a list_b) ≤ length list_a
  ∧ numbers_of (merge_list list_a list_b) `sublist_of` numbers_of list_a
  ∧ (NoDup (numbers_of list_a) → NoDup (numbers_of (merge_list list_a list_b))).
Proof.
  intros Hnd.
  assert (Hsub : numbers_of (merge_list list_a list_b) `sublist_of` numbers_of list_a).
  { rewrite merge_list_bind. induction list_a as [|dict_a rest IH]; [done|].
    rewrite bind_cons. unfold numbers_of in *. rewrite fmap_app, fmap_cons.
    destruct (numbers_of_partners dict_a list_b Hnd) as [Hn|Hn];
      unfold numbers_of in Hn; rewrite Hn; simpl.
    - by apply sublist_cons.
    - by apply sublist_skip. }
  split; [|split; [exact Hsub|]].
  - apply sublist_length in Hsub. unfold numbers_of in Hsub.
    by rewrite !length_fmap in Hsub.
  - intros Ha. by eapply sublist_NoDup.
Qed.

Lemma merge_list_unique_numbers_witness :
  length
    (merge_list
       [ <["number" := "215"]> {[ "system" := "MV27" ]};
         <["number" := "216"]> {[ "system" := "MV29" ]} ]
       [ <["number" := "216"]> {[ "jobname" := "IM5HCTRL" ]};
         <["number" := "217"]> {[ "jobname" := "NETVIEW" ]} ])
  ≤ 2.
Proof.
  apply (merge_list_unique_numbers
           [ <["number" := "215"]> {[ "system" := "MV27" ]};
             <["number" := "216"]> {[ "system" := "MV29" ]} ]).
  apply (bool_decide_unpack _). vm_compute. exact I.
Defined.

(** X7. Edge cases and size of the merger: with an empty list on either
    side nothing is merged, and no merge gives more records than there are
    pairs of a record of Form A and a record of Form B. *)
Theorem merge_list_size (list_a list_b : list record) :
  merge_list list_a [] = []
  ∧ merge_list [] list_b = []
  ∧ length (merge_list list_a list_b) ≤ length list_a * length list_b.
Proof.
  split; [|split; [reflexivity|]].
  - rewrite merge_list_bind. induction list_a as [|dict_a rest IH]; [done|].
    by rewrite bind_cons, IH.
  - rewrite merge_list_bind. induction list_a as [|dict_a rest IH]; [simpl; lia|].
    rewrite bind_cons, length_app, length_fmap. unfold partners at 1.
    pose proof (length_filter (λ d : record, dict_a !! "number" = d !! "number")
                  list_b).
    simpl. lia.
Qed.

(** ** Fields of a line and runs of white space *)

Lemma re_split_ws_from_length (n : nat) (in_run : bool) (s : string) :
  length (re_split_ws_from n in_run s) = S (Nat.min n (runs in_run s)).
Proof.
  revert n in_run. induction s as [|c s IH]; intros n in_run; simpl.
  - by rewrite Nat.min_0_r.
  - destruct (is_space c) eqn:Hc; simpl.
    + destruct in_run; simpl; [apply IH|].
      destruct n as [|n]; simpl.
      * by rewrite re_split_ws_from_zero.
      * by rewrite IH.
    + specialize (IH n false).
      destruct (re_split_ws_from n false s) as [|piece rest]; simpl in *; [done|].
      exact IH.
Qed.

Lemma runs_true_le (in_run : bool) (s : string) : runs true s ≤ runs in_run s.
Proof. destruct in_run; [done|]. destruct s as [|c s]; simpl; [done|]. destruct (is_space c); lia. Qed.

(** A text has at least the runs of any of its ends. *)
Lemma runs_suffix (in_run : bool) (pre s : string) :
  runs true s ≤ runs in_run (pre +:+ s).
Proof.
  revert in_run. induction pre as [|c pre IH]; intros in_run.
  - apply runs_true_le.
  - change (String c pre +:+ s) with (String c (pre +:+ s)). simpl.
    destruct (is_space c), in_run; try apply IH;
      (etrans; [apply (IH true)|]); try lia; apply runs_true_le.
Qed.

Lemma runs_spaces (pre s : string) :
  all_chars is_space pre = true → runs true (pre +:+ s) = runs true s.
Proof.
  induction pre as [|c pre IH]; [done|].
  change (String c pre +:+ s) with (String c (pre +:+ s)). simpl.
  destruct (is_space c); [exact IH|done].
Qed.

Lemma runs_space_then (in_run : bool) (pre s : string) :
  all_chars is_space pre = true → 1 ≤ String.length pre →
  runs false (pre +:+ s) = S (runs true s).
Proof.
  destruct pre as [|c pre]; simpl; [lia|].
  change (String c pre +:+ s) with (String c (pre +:+ s)). simpl.
  destruct (is_space c); [|done]. intros H _. by rewrite runs_spaces.
Qed.

Lemma runs_word_then (in_run : bool) (pre s : string) :
  all_chars (λ c, negb (is_space c)) pre = true → 1 ≤ String.length pre →
  runs in_run (pre +:+ s) = runs false (pre +:+ s)
  ∧ runs false (pre +:+ s) = runs false s.
Proof.
  destruct pre as [|c pre]; simpl; [lia|].
  change (String c pre +:+ s) with (String c (pre +:+ s)). simpl.
  destruct (is_space c); [done|]. simpl. intros H _. split; [done|].
  clear c. induction pre as [|c pre IH]; [done|].
  change (String c pre +:+ s) with (String c (pre +:+ s)). simpl in *.
  destruct (is_space c); [done|]. by apply IH.
Qed.

Lemma digit_not_space (c : ascii) : is_digit c = true → negb (is_space c) = true.
Proof. destruct c as [[] [] [] [] [] [] [] []]; vm_compute; done. Qed.

Lemma upper_not_space (c : ascii) : is_upper c = true → negb (is_space c) = true.
Proof. destruct c as [[] [] [] [] [] [] [] []]; vm_compute; done. Qed.

Lemma alnum_not_space (c : ascii) : is_alnum c = true → negb (is_space c) = true.
Proof. destruct c as [[] [] [] [] [] [] [] []]; vm_compute; done. Qed.

Lemma upper_or_digit_not_space (c : ascii) :
  is_upper_or_digit c = true → negb (is_space c) = true.
Proof. destruct c as [[] [] [] [] [] [] [] []]; vm_compute; done. Qed.

(** A text in which a pattern is found has at least the runs of white
    space of the part matched. *)
Lemma search_from_suffix (p : pattern) (s : string) :
  search_from p s = true → ∃ pre t, s = pre +:+ t ∧ match_here p t = true.
Proof.
  induction s as [|c s IH]; simpl.
  - destruct (match_here p EmptyString) eqn:Hm; [|done].
    intros _. by exists EmptyString, EmptyString.
  - destruct (match_here p (String c s)) eqn:Hm.
    + intros _. by exists EmptyString, (String c s).
    + intros (pre & t & -> & Ht)%IH. by exists (String c pre), t.
Qed.

(** Takes the next item of a pattern off a match. *)
Ltac next_part H pre rest Hcls Hlen :=
  apply match_rep_sound in H as (pre & rest & -> & Hcls & Hlen & _ & H);
  simpl in H.

(** A line in which the header pattern of Form B is found has three runs
    of white space or more. *)
Lemma header_b_runs (line : string) :
  re_search pattern_with_jobname line = true → 3 ≤ runs false line.
Proof.
  unfold re_search. simpl.
  intros (pre & t & -> & Hm)%search_from_suffix.
  etrans; [|apply runs_suffix]. clear pre.
  unfold match_here in Hm. simpl in Hm.
  next_part Hm p0 r0 H0 L0. next_part Hm p1 r1 H1 L1. next_part Hm p2 r2 H2 L2.
  next_part Hm p3 r3 H3 L3. next_part Hm p4 r4 H4 L4. next_part Hm p5 r5 H5 L5.
  next_part Hm p6 r6 H6 L6.
  rewrite (runs_spaces p0) by done.
  destruct (runs_word_then true p1 (p2 +:+ p3 +:+ p4 +:+ p5 +:+ p6 +:+ r6))
    as [-> ->]; [by apply (all_chars_impl _ _ _ digit_not_space)|lia|].
  rewrite (runs_space_then false p2) by done.
  destruct (runs_word_then true p3 (p4 +:+ p5 +:+ p6 +:+ r6))
    as [-> ->]; [by apply (all_chars_impl _ _ _ upper_not_space)|lia|].
  rewrite (runs_space_then false p4) by done.
  destruct (runs_word_then true p5 (p6 +:+ r6))
    as [-> ->]; [by apply (all_chars_impl _ _ _ upper_or_digit_not_space)|lia|].
  rewrite (runs_space_then false p6) by done. lia.
Qed.

(** A line in which the header pattern with job id is found has four runs
    of white space or more. *)
Lemma header_with_job_id_runs (line : string) :
  re_search pattern_with_job_id line = true → 4 ≤ runs false line.
Proof.
  unfold re_search. simpl.
  intros (pre & t & -> & Hm)%search_from_suffix.
  etrans; [|apply runs_suffix]. clear pre.
  unfold match_here in Hm. simpl in Hm.
  next_part Hm p0 r0 H0 L0. next_part Hm p1 r1 H1 L1. next_part Hm p2 r2 H2 L2.
  next_part Hm p3 r3 H3 L3. next_part Hm p4 r4 H4 L4. next_part Hm p5 r5 H5 L5.
  next_part Hm p6 r6 H6 L6. next_part Hm p7 r7 H7 L7. next_part Hm p8 r8 H8 L8.
  rewrite (runs_spaces p0) by done.
  destruct (runs_word_then true p1
              (p2 +:+ p3 +:+ p4 +:+ p5 +:+ p6 +:+ p7 +:+ p8 +:+ r8))
    as [-> ->]; [by apply (all_chars_impl _ _ _ digit_not_space)|lia|].
  rewrite (runs_space_then false p2) by done.
  destruct (runs_word_then true p3 (p4 +:+ p5 +:+ p6 +:+ p7 +:+ p8 +:+ r8))
    as [-> ->]; [by apply (all_chars_impl _ _ _ upper_not_space)|lia|].
  rewrite (runs_space_then false p4) by done.
  destruct (runs_word_then true p5 (p6 +:+ p7 +:+ p8 +:+ r8))
    as [-> ->]; [by apply (all_chars_impl _ _ _ upper_or_digit_not_space)|lia|].
  rewrite (runs_space_then false p6) by done.
  destruct (runs_word_then true p7 (p8 +:+ r8))
    as [-> ->]; [by apply (all_chars_impl _ _ _ upper_or_digit_not_space)|lia|].
  rewrite (runs_space_then false p8) by done. lia.
Qed.

(** ** Form B parser *)

(** A header line of Form B has four fields or more. *)
Lemma header_b_fields (line : string) :
  is_header_b line = true → 4 ≤ length (fields_b line).
Proof.
  intros Hh%header_b_runs. unfold fields_b, re_split_ws.
  rewrite re_split_ws_from_length. lia.
Qed.

Lemma step_b_other (list_b : list record) (line : string) :
  is_header_b line = false → step_b list_b line = Ok list_b.
Proof. unfold step_b, is_header_b. by intros ->. Qed.

Lemma step_b_short (list_b : list record) (line : string) :
  is_header_b line = true → length (fields_b line) = 4 →
  step_b list_b line = Raise IndexError.
Proof.
  unfold step_b, is_header_b, fields_b. intros -> Hlen.
  destruct (re_split_ws 5 (strip line)) as [|f0 [|f1 [|f2 [|f3 [|f4 rest]]]]];
    simpl in Hlen; try lia. reflexivity.
Qed.

Lemma step_b_record (list_b : list record) (line : string) :
  is_header_b line = true → 5 ≤ length (fields_b line) →
  ∃ dict, record_of_b line dict ∧ step_b list_b line = Ok (list_b ++ [dict]).
Proof.
  unfold step_b, is_header_b, record_of_b, fields_b. intros -> Hlen.
  destruct (re_split_ws 5 (strip line)) as [|f0 [|f1 [|f2 [|f3 [|f4 rest]]]]];
    simpl in Hlen; try lia.
  eexists. split; [|reflexivity]. by exists f0, f1, f2, f3, f4, rest.
Qed.

Lemma loop_b_cases (lines : list string) (list_b : list record) :
  (Exists short_header_b lines ∧ loop_b lines list_b = Raise IndexError)
  ∨ (¬ Exists short_header_b lines
     ∧ ∃ new, loop_b lines list_b = Ok (list_b ++ new)
         ∧ Forall2 record_of_b (List.filter is_header_b lines) new).
Proof.
  revert list_b. induction lines as [|line rest IH]; intros list_b.
  - right. split; [by intros H; inversion H|].
    exists []. simpl. by rewrite app_nil_r.
  - simpl. destruct (is_header_b line) eqn:Hh.
    + pose proof (header_b_fields _ Hh) as Hlen.
      destruct (decide (length (fields_b line) = 4)) as [H4|H4].
      * left. split; [by left|]. by rewrite (step_b_short _ _ Hh H4).
      * destruct (step_b_record list_b line Hh) as (dict & Hd & ->); [lia|].
        simpl. destruct (IH (list_b ++ [dict])) as [[Hex ->]|(Hno & new & -> & Hnew)].
        -- left. split; [by right|done].
        -- right. split.
           ++ intros Hex. inversion Hex as [? ? [_ ?]|]; [done|by apply Hno].
           ++ exists (dict :: new). rewrite <- app_assoc. split; [done|].
              by constructor.
    + rewrite (step_b_other _ _ Hh). simpl.
      destruct (IH list_b) as [[Hex ->]|(Hno & new & -> & Hnew)].
      * left. split; [by right|done].
      * right. split; [|by exists new].
        intros Hex. inversion Hex as [? ? [? _]|]; [congruence|by apply Hno].
Qed.

(** X8. When [parse_result_b] returns, it returns one record for each
    line that matches the header pattern, in the order of the lines, made
    of the fields of index 0, 2 and 4 of the line split at runs of white
    space; the other lines give nothing. *)
Theorem parse_result_b_records (result : string) (records : list record) :
  parse_result_b result = Ok records →
  Forall2 record_of_b
    (List.filter is_header_b (split_char "010" None result)) records
  ∧ length records
    = length (List.filter is_header_b (split_char "010" None result)).
Proof.
  unfold parse_result_b. intros Hp.
  destruct (loop_b_cases (split_char "010" None result) [])
    as [[_ Hr]|(_ & new & Hok & Hnew)]; [congruence|].
  rewrite Hok in Hp. injection Hp as <-. simpl.
  split; [done|]. symmetry. by eapply Forall2_length.
Qed.

Lemma parse_result_b_records_witness :
  length
    [ (<["number" := "215"]> (<["jobname" := "IM5HCONN"]>
         (<["message_id" := "HWSC0000I"]> ∅)) : record) ]
  = length
      (List.filter is_header_b
         (split_char "010" None
            ("ID:R/K T JOB NAME MESSAGE TEXT" +:+ String "010"
               "215 R IM5HCONN *215 HWSC0000I *IMS CONNECT READY*"))).
Proof.
  apply (parse_result_b_records
           ("ID:R/K T JOB NAME MESSAGE TEXT" +:+ String "010"
              "215 R IM5HCONN *215 HWSC0000I *IMS CONNECT READY*")).
  vm_compute. reflexivity.
Defined.

(** X9. [parse_result_b] raises exactly when some line that matches the
    header pattern has four fields only: a header always has four fields or
    more, and the parser reads the fifth. What it raises then is [IndexError]; on any other
    input it returns a list. *)
Theorem parse_result_b_raises (result : string) :
  (∀ line, is_header_b line = true → 4 ≤ length (fields_b line))
  ∧ (∀ e, parse_result_b result = Raise e
          ↔ e = IndexError
            ∧ Exists short_header_b (split_char "010" None result))
  ∧ ((∃ records, parse_result_b result = Ok records)
     ↔ ¬ Exists short_header_b (split_char "010" None result)).
Proof.
  split; [apply header_b_fields|].
  unfold parse_result_b.
  destruct (loop_b_cases (split_char "010" None result) [])
    as [[Hex Hr]|(Hno & new & Hok & _)].
  - rewrite Hr. split.
    + intros e. split; [by intros [= <-]|by intros [-> _]].
    + split; [by intros [records [=]]|done].
  - rewrite Hok. split.
    + intros e. split; [done|by intros [_ ?]].
    + split; [done|by eexists].
Qed.

(** ** Form A parser: when it raises *)

Lemma with_job_id_fields (line : string) :
  re_search pattern_with_job_id line = true →
  ∃ e0 e1 e2 e3 e4, re_split_ws 4 line = [e0; e1; e2; e3; e4].
Proof.
  intros Hn%header_with_job_id_runs.
  assert (Hlen : length (re_split_ws 4 line) = 5).
  { unfold re_split_ws. rewrite re_split_ws_from_length. lia. }
  destruct (re_split_ws 4 line) as [|e0 [|e1 [|e2 [|e3 [|e4 [|e5 ?]]]]]];
    simpl in Hlen; try lia. by exists e0, e1, e2, e3, e4.
Qed.

(** A header with job id is always read. *)
Lemma step_a_with_job_id (len : nat) (st : state_a) (index : nat) (line : string) :
  re_search pattern_with_job_id (strip line) = true →
  ∃ st', step_a len st index line = Ok st'.
Proof.
  intros Hn. destruct (with_job_id_fields _ Hn) as (e0 & e1 & e2 & e3 & e4 & He).
  unfold step_a. rewrite Hn, He. simpl. by eexists.
Qed.

Lemma split_char_length (sep : ascii) (n : nat) (s : string) :
  1 ≤ length (split_char sep (Some n) s) ≤ S n.
Proof.
  revert n. induction s as [|c s IH]; intros n; simpl; [lia|].
  destruct (Ascii.eqb c sep), n as [|n]; simpl;
    try (specialize (IH n); lia);
    match goal with
    | |- context [split_char sep (Some ?m) s] =>
        specialize (IH m); destruct (split_char sep (Some m) s); simpl in *; lia
    end.
Qed.

(** A header without job id is read when it has four fields, and makes
    the parser raise when it has fewer. *)
Lemma step_a_without_job_id (len : nat) (st : state_a) (index : nat) (line : string) :
  re_search pattern_with_job_id (strip line) = false →
  re_search pattern_without_job_id (strip line) = true →
  if decide (length (split_char " " (Some 3) (strip line)) < 4)
  then step_a len st index line = Raise IndexError
  else ∃ st', step_a len st index line = Ok st'.
Proof.
  intros Hn Hm. unfold step_a. rewrite Hn, Hm. simpl.
  pose proof (split_char_length " " 3 (strip line)) as Hlen.
  destruct (split_char " " (Some 3) (strip line)) as [|e0 [|e1 [|e2 [|e3 [|e4 ?]]]]];
    simpl in *; try lia; try case_decide; try lia; try reflexivity;
    by eexists.
Qed.

(** A line that is no header is always read. *)
Lemma step_a_not_header (len : nat) (st : state_a) (index : nat) (line : string) :
  is_header line = false → ∃ st', step_a len st index line = Ok st'.
Proof.
  unfold is_header. intros [Hn Hm]%orb_false_elim.
  unfold step_a. rewrite Hn, Hm. simpl.
  match goal with |- context [end_flag ?st1] => destruct (end_flag st1) end;
    simpl; [by eexists|].
  match goal with |- context [request_temp ?st1] =>
    destruct (is_empty (request_temp st1)) end; simpl; by eexists.
Qed.

Lemma step_a_cases (len : nat) (st : state_a) (index : nat) (line : string) :
  (short_header_a line ∧ step_a len st index line = Raise IndexError)
  ∨ (¬ short_header_a line ∧ ∃ st', step_a len st index line = Ok st').
Proof.
  destruct (re_search pattern_with_job_id (strip line)) eqn:Hn.
  - right. split; [intros (Hn' & _); congruence|by apply step_a_with_job_id].
  - destruct (re_search pattern_without_job_id (strip line)) eqn:Hm.
    + pose proof (step_a_without_job_id len st index line Hn Hm) as Hstep.
      case_decide.
      * left. by repeat split.
      * right. split; [intros (_ & _ & ?); lia|done].
    + right. split; [intros (_ & Hm' & _); congruence|].
      apply step_a_not_header. unfold is_header. by rewrite Hn, Hm.
Qed.

Lemma loop_a_cases (len : nat) (lines : list string) (index : nat) (st : state_a) :
  (Exists short_header_a lines ∧ loop_a len index lines st = Raise IndexError)
  ∨ (¬ Exists short_header_a lines ∧ ∃ st', loop_a len index lines st = Ok st').
Proof.
  revert index st. induction lines as [|line rest IH]; intros index st.
  - right. split; [by intros H; inversion H|by eexists].
  - simpl. destruct (step_a_cases len st index line) as [[Hs ->]|[Hs [st1 ->]]].
    + left. split; [by left|done].
    + simpl. destruct (IH (S index) st1) as [[Hex ->]|[Hno [st' ->]]].
      * left. split; [by right|done].
      * right. split; [|by eexists].
        intros Hex. inversion Hex; [by apply Hs|by apply Hno].
Qed.

(** X10. [parse_result_a] raises exactly when some line is matched by
    the pattern without job id only and has fewer than three single spaces,
    which leaves [elements[3]], or an earlier field, missing; it raises
    [IndexError] then. A header with job id never makes it raise, since
    such a line always splits into five fields, and on any other input the
    function returns a list. *)
Theorem parse_result_a_raises (result : string) :
  (∀ line, re_search pattern_with_job_id line = true →
           length (re_split_ws 4 line) = 5)
  ∧ (∀ e, parse_result_a result = Raise e
          ↔ e = IndexError
            ∧ Exists short_header_a (split_char "010" None result))
  ∧ ((∃ records, parse_result_a result = Ok records)
     ↔ ¬ Exists short_header_a (split_char "010" None result)).
Proof.
  split.
  { intros line (e0 & e1 & e2 & e3 & e4 & ->)%with_job_id_fields. reflexivity. }
  unfold parse_result_a, run_a.
  destruct (loop_a_cases (length (split_char "010" None result))
              (split_char "010" None result) 0 init_a)
    as [[Hex Hr]|(Hno & st' & Hok)].
  - rewrite Hr. simpl. split.
    + intros e. split; [by intros [= <-]|by intros [-> _]].
    + split; [by intros [records [=]]|done].
  - rewrite Hok. simpl. split.
    + intros e. split; [done|by intros [_ ?]].
    + split; [done|by eexists].
Qed.

(** ** Form A parser: the records it returns *)

Lemma flush_a_closed (st : state_a) :
  Forall closed (list_a st) →
  (is_empty (request_temp st) = false → headed (dict_temp st)) →
  Forall closed (list_a (flush_a st))
  ∧ (is_empty (request_temp (flush_a st)) = false → headed (dict_temp (flush_a st))).
Proof.
  intros Hl Hd. unfold flush_a.
  destruct (is_empty (request_temp st)) eqn:Hr; simpl;
    [split; [done|by rewrite Hr]|].
  split; [|done].
  apply Forall_app. split; [done|]. constructor; [|constructor].
  destruct (Hd eq_refl) as (Hn & Ht & Hs).
  split; [|exists (request_temp st); by rewrite lookup_insert_eq].
  unfold headed. by rewrite !lookup_insert_ne.
Qed.

Lemma step_a_closed (len : nat) (st : state_a) (index : nat) (line : string)
    (st' : state_a) :
  Forall closed (list_a st) →
  (is_empty (request_temp st) = false → headed (dict_temp st)) →
  step_a len st index line = Ok st' →
  Forall closed (list_a st')
  ∧ (is_empty (request_temp st') = false → headed (dict_temp st')).
Proof.
  destruct st as [d l r e f]. unfold step_a.
  simpl dict_temp; simpl list_a; simpl request_temp; simpl end_flag; simpl endflag.
  intros Hl Hd.
  set (st1 := if index =? len - 1 then StateA d l r e true else StateA d l r e f).
  assert (H1 : list_a st1 = l ∧ request_temp st1 = r ∧ dict_temp st1 = d
               ∧ end_flag st1 = e)
    by (unfold st1; by destruct (index =? len - 1)).
  destruct H1 as (Hl1 & Hr1 & Hd1 & He1).
  destruct (flush_a_closed st1) as [Hfl Hfd];
    [by rewrite Hl1|by rewrite Hr1, Hd1|].
  rewrite He1, Hr1, Hl1, Hd1. clearbody st1.
  destruct (re_search pattern_with_job_id (strip line)); simpl.
  - repeat next_item. intros [= <-]. simpl. split; [done|]. intros _.
    unfold headed. rewrite lookup_insert_eq.
    rewrite lookup_insert_ne, lookup_insert_eq by done.
    rewrite lookup_insert_ne, lookup_insert_ne, lookup_insert_eq by done. eauto.
  - destruct (re_search pattern_without_job_id (strip line)); simpl.
    + repeat next_item. intros [= <-]. simpl. split; [done|]. intros _.
      unfold headed. rewrite lookup_insert_eq.
      rewrite lookup_insert_ne, lookup_insert_eq by done.
      rewrite lookup_insert_ne, lookup_insert_ne, lookup_insert_eq by done. eauto.
    + destruct e; simpl.
      * by intros [= <-].
      * destruct (is_empty r) eqn:Hr; simpl; intros [= <-]; simpl;
          rewrite ?Hl1, ?Hr1, ?Hd1.
        -- split; [done|]. by rewrite Hr.
        -- split; [done|]. intros _. by apply Hd.
Qed.

Lemma loop_a_closed (len : nat) (lines : list string) (index : nat)
    (st st' : state_a) :
  Forall closed (list_a st) →
  (is_empty (request_temp st) = false → headed (dict_temp st)) →
  loop_a len index lines st = Ok st' →
  Forall closed (list_a st').
Proof.
  revert index st.
  induction lines as [|line rest IH]; intros index st Hl Hd; simpl.
  - by intros [= <-].
  - destruct (step_a len st index line) as [st1|] eqn:Hstep; simpl; [|discriminate].
    destruct (step_a_closed _ _ _ _ _ Hl Hd Hstep) as [Hl1 Hd1].
    by apply IH.
Qed.

(** X11. Every record [parse_result_a] returns has a [number], a [type]
    and a [system], and a [message_text] that is not empty. *)
Theorem parse_result_a_records (result : string) (records : list record) :
  parse_result_a result = Ok records →
  Forall (λ dict : record,
            is_Some (dict !! "number") ∧ is_Some (dict !! "type")
            ∧ is_Some (dict !! "system")
            ∧ ∃ text, dict !! "message_text" = Some text
                      ∧ is_empty text = false) records.
Proof.
  unfold parse_result_a, run_a.
  destruct (loop_a _ 0 _ init_a) as [st|] eqn:Hloop; simpl; [|discriminate].
  intros [= <-].
  assert (Hc : Forall closed (list_a st))
    by (eapply (loop_a_closed _ _ _ init_a); [constructor|done|exact Hloop]).
  eapply Forall_impl; [exact Hc|].
  intros dict ((Hn & Ht & Hs) & Htext). done.
Qed.

Lemma parse_result_a_records_witness :
  Forall (λ dict : record,
            is_Some (dict !! "number") ∧ is_Some (dict !! "type")
            ∧ is_Some (dict !! "system")
            ∧ ∃ text, dict !! "message_text" = Some text
                      ∧ is_empty text = false)
    [ <["message_text" := "*215 HWSC0000I"]>
        (<["number" := "215"]> (<["type" := "R"]> (<["system" := "MV27"]>
           (<["job_id" := "STC01537"]> (∅ : record))))) ].
Proof.
  apply (parse_result_a_records
           ("215 R MV27 STC01537 *215 HWSC0000I" +:+ String "010"
              "216 R MV29 *216 DFS3139I")).
  vm_compute. reflexivity.
Defined.

(** ** Form A parser: the counter and the flags have no effect *)

Ltac each_item :=
  repeat match goal with
         | |- context [getitem ?l ?i] => destruct (getitem l i); simpl; [|done]
         end.

Lemma step_a_agree (len : nat) (st1 st2 : state_a) (index : nat) (line : string) :
  core_a st1 = core_a st2 → end_flag st1 = end_flag st2 →
  agree_a (step_a len st1 index line) (step_a 0 st2 1 line).
Proof.
  destruct st1 as [d l r e f1], st2 as [d2 l2 r2 e2 f2]. unfold core_a. simpl.
  intros [= <- <- <-] <-. unfold step_a.
  simpl dict_temp; simpl list_a; simpl request_temp; simpl end_flag; simpl endflag.
  change (1 =? 0 - 1) with false. cbv iota.
  destruct (index =? len - 1);
    (destruct (re_search pattern_with_job_id (strip line)); simpl;
     [unfold flush_a; simpl; destruct (is_empty r); simpl;
      each_item; done|]);
    (destruct (re_search pattern_without_job_id (strip line)); simpl;
     [unfold flush_a; simpl; destruct (is_empty r); simpl;
      each_item; done|]);
    destruct e; simpl; unfold flush_a; simpl; destruct (is_empty r); simpl; done.
Qed.

Lemma loop_a_agree (len : nat) (lines : list string) (index : nat)
    (st1 st2 : state_a) :
  core_a st1 = core_a st2 → end_flag st1 = end_flag st2 →
  agree_a (loop_a len index lines st1) (scan_a lines st2).
Proof.
  revert index st1 st2.
  induction lines as [|line rest IH]; intros index st1 st2 Hc He; simpl; [done|].
  pose proof (step_a_agree len st1 st2 index line Hc He) as Hstep.
  destruct (step_a len st1 index line) as [st1'|e1],
           (step_a 0 st2 1 line) as [st2'|e2]; simpl in *; try done.
  destruct Hstep as [Hc' He']. by apply IH.
Qed.

(** [parse_result_a] is the scan of the lines that takes no account of
    their number. *)
Lemma parse_result_a_scan (result : string) :
  parse_result_a result
  = st ← scan_a (split_char "010" None result) init_a; Ok (list_a st).
Proof.
  unfold parse_result_a, run_a.
  pose proof (loop_a_agree (length (split_char "010" None result))
                (split_char "010" None result) 0 init_a init_a eq_refl eq_refl)
    as Hagree.
  destruct (loop_a _ 0 _ init_a) as [st1|e1], (scan_a _ init_a) as [st2|e2];
    simpl in *; try done; [|by subst].
  destruct Hagree as [[= _ <- _] _]. done.
Qed.

Lemma scan_a_app (lines1 lines2 : list string) (st : state_a) :
  scan_a (lines1 ++ lines2) st = st1 ← scan_a lines1 st; scan_a lines2 st1.
Proof.
  revert st. induction lines1 as [|line rest IH]; intros st; simpl; [done|].
  destruct (step_a 0 st 1 line) as [st1|]; simpl; [apply IH|done].
Qed.

Lemma scan_a_end_flag (lines : list string) (st st' : state_a) :
  end_flag st = false → scan_a lines st = Ok st' → end_flag st' = false.
Proof.
  revert st. induction lines as [|line rest IH]; intros st He; simpl.
  - by intros [= <-].
  - destruct (step_a 0 st 1 line) as [st1|] eqn:Hstep; simpl; [|discriminate].
    apply IH. destruct (is_header line) eqn:Hh.
    + by destruct (step_a_header _ _ _ _ _ He Hh Hstep) as (_ & _ & ?).
    + by destruct (step_a_other _ _ _ _ _ He Hh Hstep) as (_ & _ & ?).
Qed.

(** Lines that are no headers leave the list as it is. *)
Lemma scan_a_no_header (lines : list string) (st : state_a) :
  end_flag st = false → Forall (λ line, is_header line = false) lines →
  ∃ st', scan_a lines st = Ok st' ∧ list_a st' = list_a st
         ∧ end_flag st' = false
         ∧ (is_empty (request_temp st) = true → core_a st' = core_a st).
Proof.
  intros He Hlines. revert st He.
  induction Hlines as [|line rest Hh _ IH]; intros st He; simpl.
  - by exists st.
  - destruct (step_a_not_header 0 st 1 line Hh) as [st1 Hstep]. rewrite Hstep. simpl.
    destruct (step_a_other _ _ _ _ _ He Hh Hstep) as (Hl1 & Hr1 & He1).
    destruct (IH st1 He1) as (st' & -> & Hl' & He' & Hcore).
    exists st'. split; [done|]. split; [congruence|]. split; [done|].
    intros Hr. rewrite Hcore by congruence.
    revert Hstep. unfold step_a, is_header in *.
    apply orb_false_elim in Hh as [-> ->]. simpl. rewrite He.
    change (1 =? 0 - 1) with false. cbv iota. rewrite Hr. simpl.
    by intros [= <-].
Qed.

Lemma split_char_app (sep : ascii) (s t : string) :
  split_char sep None (s +:+ String sep t)
  = split_char sep None s ++ split_char sep None t.
Proof.
  induction s as [|c s IH].
  - simpl. change (EmptyString +:+ String sep t) with (String sep t). simpl.
    by rewrite Ascii.eqb_refl.
  - change (String c s +:+ String sep t) with (String c (s +:+ String sep t)).
    simpl. rewrite IH. destruct (Ascii.eqb c sep); [done|].
    pose proof (split_char_not_nil sep None s).
    by destruct (split_char sep None s).
Qed.

(** X12. Lines that match no header pattern change nothing when they
    stand before the first line or after the last line of a display: the
    parser gives the same result, a list or an exception, for the display
    alone. So the title lines of a display are skipped, and what follows
    the last header is lost with the record of that header. *)
Theorem parse_result_a_skips (junk result : string) :
  Forall (λ line, is_header line = false) (split_char "010" None junk) →
  parse_result_a (junk +:+ String "010" result) = parse_result_a result
  ∧ parse_result_a (result +:+ String "010" junk) = parse_result_a result.
Proof.
  intros Hjunk. rewrite !parse_result_a_scan, !split_char_app, !scan_a_app.
  split.
  - destruct (scan_a_no_header _ init_a eq_refl Hjunk) as (st' & -> & _ & He & Hc).
    simpl.
    pose proof (Hc eq_refl) as Hcore.
    destruct st' as [d l r e f]. unfold core_a in Hcore. simpl in *.
    injection Hcore as -> -> ->. subst e.
    clear. generalize (split_char "010" None result). intros lines.
    assert (Hgen : ∀ st1 st2, core_a st1 = core_a st2 → end_flag st1 = end_flag st2 →
                     agree_a (scan_a lines st1) (scan_a lines st2)).
    { induction lines as [|line rest IH]; intros st1 st2 Hc He; simpl; [done|].
      pose proof (step_a_agree 0 st1 st2 1 line Hc He) as Hstep.
      destruct (step_a 0 st1 1 line) as [st1'|e1],
               (step_a 0 st2 1 line) as [st2'|e2]; simpl in *; try done.
      destruct Hstep as [Hc' He']. by apply IH. }
    specialize (Hgen (StateA ∅ [] EmptyString false f) init_a eq_refl eq_refl).
    destruct (scan_a lines (StateA ∅ [] EmptyString false f)) as [st1|e1],
             (scan_a lines init_a) as [st2|e2]; simpl in *; try done; [|by subst].
    destruct Hgen as [[= _ -> _] _]. done.
  - destruct (scan_a (split_char "010" None result) init_a) as [st|e] eqn:Hscan;
      simpl; [|done].
    pose proof (scan_a_end_flag _ init_a _ eq_refl Hscan) as He.
    destruct (scan_a_no_header _ st He Hjunk) as (st' & -> & Hl & _).
    simpl. by rewrite Hl.
Qed.

Lemma parse_result_a_skips_witness :
  parse_result_a
    ("IEE112I 08.18.16 PENDING REQUESTS" +:+ String "010"
       ("215 R MV27 STC01537 *215 HWSC0000I" +:+ String "010"
          "216 R MV29 *216 DFS3139I"))
  = parse_result_a
      ("215 R MV27 STC01537 *215 HWSC0000I" +:+ String "010"
         "216 R MV29 *216 DFS3139I").
Proof.
  apply (parse_result_a_skips "IEE112I 08.18.16 PENDING REQUESTS").
  repeat constructor.
Defined.

(** X13. A header line put after the display closes the record that is
    dropped: when the loop ends in a state [st] for a display, the parser
    returns, for the display followed by one more line that is a header and
    has its fields, the list of [st] followed by the record in progress in
    [st]. *)
Theorem parse_result_a_sentinel (result header : string) (st : state_a) :
  run_a result = Ok st →
  is_header header = true → ¬ short_header_a header →
  split_char "010" None header = [header] →
  parse_result_a (result +:+ String "010" header)
  = Ok (list_a st ++ open_record st).
Proof.
  intros Hrun Hh Hshort Hline.
  rewrite parse_result_a_scan, split_char_app, scan_a_app, Hline.
  unfold run_a in Hrun.
  pose proof (loop_a_agree (length (split_char "010" None result))
                (split_char "010" None result) 0 init_a init_a eq_refl eq_refl)
    as Hagree.
  rewrite Hrun in Hagree.
  destruct (scan_a (split_char "010" None result) init_a) as [st2|] eqn:Hscan;
    simpl in Hagree; [|done].
  destruct Hagree as [Hcore _]. simpl.
  pose proof (scan_a_end_flag _ init_a _ eq_refl Hscan) as He2.
  destruct (step_a_cases 0 st2 1 header) as [[? _]|[_ [st3 Hstep]]]; [done|].
  rewrite Hstep. simpl.
  destruct (step_a_header _ _ _ _ _ He2 Hh Hstep) as (Hl3 & _).
  rewrite Hl3. unfold core_a in Hcore. injection Hcore as Hd Hl Hr.
  unfold flush_a, open_record. rewrite Hr, Hd, Hl.
  destruct (is_empty (request_temp st2)); simpl; [by rewrite app_nil_r|done].
Qed.

Lemma parse_result_a_sentinel_witness :
  parse_result_a
    ("215 R MV27 STC01537 *215 HWSC0000I" +:+ String "010" "99 E END X")
  = Ok [ <["message_text" := "*215 HWSC0000I"]>
           (<["number" := "215"]> (<["type" := "R"]> (<["system" := "MV27"]>
              (<["job_id" := "STC01537"]> (∅ : record))))) ].
Proof.
  etrans.
  - apply (parse_result_a_sentinel "215 R MV27 STC01537 *215 HWSC0000I"
             "99 E END X"
             (StateA
                (<["number" := "215"]> (<["type" := "R"]> (<["system" := "MV27"]>
                   (<["job_id" := "STC01537"]> ∅))))
                [] "*215 HWSC0000I" false true)).
    + vm_compute. reflexivity.
    + vm_compute. reflexivity.
    + intros (_ & _ & Hlen). vm_compute in Hlen. lia.
    + reflexivity.
  - vm_compute. reflexivity.
Defined.

(** ** The query: commands, merged records, and the filter on them *)

Section QueryMore.
Variable OperatorCmd_execute : string → Z * string.

(** X14. Both console commands are issued before anything is parsed, and
    the first that fails decides: a positive return code of "d r,a,s" ends
    [create_merge_list] with [OperatorCmdError] and the message of that
    command; otherwise a positive return code of "d r,a,jn" ends it with
    the message of this one, whatever the first display holds, were it a
    display the parser raises on; and when neither code is positive the
    result is the merge of the two parses. *)
Theorem create_merge_list_commands :
  ((0 < fst (OperatorCmd_execute "d r,a,s"))%Z →
   create_merge_list OperatorCmd_execute
   = Raise (OperatorCmdError (snd (OperatorCmd_execute "d r,a,s"))))
  ∧ ((fst (OperatorCmd_execute "d r,a,s") ≤ 0)%Z →
     (0 < fst (OperatorCmd_execute "d r,a,jn"))%Z →
     create_merge_list OperatorCmd_execute
     = Raise (OperatorCmdError (snd (OperatorCmd_execute "d r,a,jn"))))
  ∧ ((fst (OperatorCmd_execute "d r,a,s") ≤ 0)%Z →
     (fst (OperatorCmd_execute "d r,a,jn") ≤ 0)%Z →
     create_merge_list OperatorCmd_execute
     = list_a ← parse_result_a (snd (OperatorCmd_execute "d r,a,s"));
       list_b ← parse_result_b (snd (OperatorCmd_execute "d r,a,jn"));
       Ok (merge_list list_a list_b)).
Proof.
  unfold create_merge_list. rewrite !execute_command_spec.
  repeat split; intros; repeat case_decide; try lia; reflexivity.
Qed.

End QueryMore.

Lemma parse_result_b_shape (result : string) (records : list record) :
  parse_result_b result = Ok records →
  Forall (λ dict : record,
            ∃ f0 f2 f4,
              dict = <["number" := f0]> (<["jobname" := f2]>
                       (<["message_id" := f4]> ∅))) records.
Proof.
  unfold parse_result_b. intros Hp.
  destruct (loop_b_cases (split_char "010" None result) [])
    as [[_ Hr]|(_ & new & Hok & Hnew)]; [congruence|].
  rewrite Hok in Hp. injection Hp as <-. simpl.
  clear Hok.
  induction Hnew as [|line dict lines new (f0 & f1 & f2 & f3 & f4 & rest & _ & ->) _ IH];
    [constructor|].
  constructor; [by exists f0, f2, f4|exact IH].
Qed.

Lemma parse_result_a_closed (result : string) (records : list record) :
  parse_result_a result = Ok records → Forall closed records.
Proof.
  unfold parse_result_a, run_a.
  destruct (loop_a _ 0 _ init_a) as [st|] eqn:Hloop; simpl; [|discriminate].
  intros [= <-].
  eapply (loop_a_closed _ _ _ init_a); [constructor|done|exact Hloop].
Qed.

(** X15. A record merged from the two parses takes [number], [jobname]
    and [message_id] from the record of Form B and [type], [system],
    [job_id] and [message_text] from the record of Form A with the same
    number; so every merged record has a number, a type, a system, a job
    name, a message id and a message text that is not empty, the job id
    being there when the header of Form A had one. *)
Theorem merged_record_fields (display_a display_b : string)
    (list_a list_b : list record) :
  parse_result_a display_a = Ok list_a →
  parse_result_b display_b = Ok list_b →
  Forall
    (λ dict_z : record,
       (∃ dict_a dict_b,
          dict_a ∈ list_a ∧ dict_b ∈ list_b
          ∧ dict_a !! "number" = dict_b !! "number"
          ∧ (∀ key, key ∈ ["number"; "jobname"; "message_id"] →
                    dict_z !! key = dict_b !! key)
          ∧ (∀ key, key ∈ ["type"; "system"; "job_id"; "message_text"] →
                    dict_z !! key = dict_a !! key))
       ∧ closed dict_z ∧ complete dict_z)
    (merge_list list_a list_b).
Proof.
  intros Ha%parse_result_a_closed Hb%parse_result_b_shape.
  rewrite Forall_forall in Ha, Hb. apply Forall_forall. intros dict_z Hz.
  apply merge_list_elem in Hz as (dict_a & dict_b & Hina & Hinb & Hnum & ->).
  destruct (Hb _ Hinb) as (f0 & f2 & f4 & Hshape).
  destruct (Ha _ Hina) as [([n Hn] & [t Ht] & [s Hs]) (text & Htext & Hne)].
  assert (Hfrom_b : ∀ key, key ∈ ["number"; "jobname"; "message_id"] →
                      overlay dict_a dict_b !! key = dict_b !! key).
  { intros key Hkey. rewrite overlay_lookup.
    destruct (dict_b !! key) eqn:Hk; [done|]. exfalso. subst dict_b.
    apply list_elem_of_In in Hkey. simpl in Hkey.
    destruct Hkey as [<-|[<-|[<-|[]]]]; vm_compute in Hk; discriminate. }
  assert (Hfrom_a : ∀ key, key ∈ ["type"; "system"; "job_id"; "message_text"] →
                      overlay dict_a dict_b !! key = dict_a !! key).
  { intros key Hkey. rewrite overlay_lookup.
    destruct (dict_b !! key) eqn:Hk; [|done]. exfalso. subst dict_b.
    apply list_elem_of_In in Hkey. simpl in Hkey.
    destruct Hkey as [<-|[<-|[<-|[<-|[]]]]]; vm_compute in Hk; discriminate. }
  split; [by exists dict_a, dict_b|].
  unfold closed, headed, complete.
  rewrite (Hfrom_b "number"), (Hfrom_b "jobname"), (Hfrom_b "message_id") by set_solver.
  rewrite (Hfrom_a "type"), (Hfrom_a "system"), (Hfrom_a "message_text") by set_solver.
  rewrite Ht, Hs, Htext, <- Hnum, Hn. subst dict_b.
  repeat split; eauto; vm_compute; eauto.
Qed.

Lemma merged_record_fields_witness :
  Forall
    (λ dict_z : record,
       (∃ dict_a dict_b,
          dict_a ∈ [ <["message_text" := "*215 HWSC0000I"]>
                       (<["number" := "215"]> (<["type" := "R"]>
                          (<["system" := "MV27"]>
                             (<["job_id" := "STC01537"]> (∅ : record))))) ]
          ∧ dict_b ∈ [ <["number" := "215"]> (<["jobname" := "IM5HCONN"]>
                         (<["message_id" := "HWSC0000I"]> (∅ : record))) ]
          ∧ dict_a !! "number" = dict_b !! "number"
          ∧ (∀ key, key ∈ ["number"; "jobname"; "message_id"] →
                    dict_z !! key = dict_b !! key)
          ∧ (∀ key, key ∈ ["type"; "system"; "job_id"; "message_text"] →
                    dict_z !! key = dict_a !! key))
       ∧ closed dict_z ∧ complete dict_z)
    (merge_list
       [ <["message_text" := "*215 HWSC0000I"]>
           (<["number" := "215"]> (<["type" := "R"]> (<["system" := "MV27"]>
              (<["job_id" := "STC01537"]> (∅ : record))))) ]
       [ <["number" := "215"]> (<["jobname" := "IM5HCONN"]>
           (<["message_id" := "HWSC0000I"]> (∅ : record))) ]).
Proof.
  apply (merged_record_fields
           ("215 R MV27 STC01537 *215 HWSC0000I" +:+ String "010"
              "216 R MV29 *216 DFS3139I")
           "215 R IM5HCONN *215 HWSC0000I *IMS CONNECT READY*");
    vm_compute; reflexivity.
Defined.

(** ** The query on validated parameters *)

Lemma validated_literal (p : params) (criterion : option string) (value : string) :
  validated p → criterion ∈ [system p; jobname p; message_id p] →
  condition_of criterion = Some value → has_meta value = false.
Proof.
  intros Hv Hin Hc. destruct criterion as [v|]; [|done].
  destruct (Hv _ v Hin eq_refl) as [arg_val Hok].
  apply (validated_criterion_literal arg_val v); [by left|done].
Qed.

Lemma filter_requests_complete (merged_list : list record) (p : params) :
  Forall complete merged_list → validated p →
  filter_requests merged_list p
  = Ok (List.filter
          (λ dict, passes "system" (system p) dict
                   && passes "jobname" (jobname p) dict
                   && passes "message_id" (message_id p) dict)
          (number_selection merged_list (request_number_list p))).
Proof.
  intros Hcomplete Hval.
  assert (Hsel : Forall complete
            (number_selection merged_list (request_number_list p)))
    by by apply number_selection_Forall.
  unfold filter_requests.
  rewrite (filter_step_spec _ "system" (system p)).
  - simpl. rewrite (filter_step_spec _ "jobname" (jobname p)).
    + simpl. rewrite (filter_step_spec _ "message_id" (message_id p)).
      * simpl. rewrite (filter_filter_bool (passes "system" (system p))
                          (passes "jobname" (jobname p))).
        by rewrite filter_filter_bool.
      * intros value. apply (validated_literal p); [done|set_solver].
      * do 2 apply Forall_filter_bool.
        eapply Forall_impl; [exact Hsel|]. by intros dict (_ & _ & ?).
    + intros value. apply (validated_literal p); [done|set_solver].
    + apply Forall_filter_bool.
      eapply Forall_impl; [exact Hsel|]. by intros dict (_ & ? & _).
  - intros value. apply (validated_literal p); [done|set_solver].
  - eapply Forall_impl; [exact Hsel|]. by intros dict (? & _).
Qed.

Section QueryValidated.
Variable OperatorCmd_execute : string → Z * string.

Lemma create_merge_list_exceptions (e : exn) :
  create_merge_list OperatorCmd_execute = Raise e →
  e = IndexError ∨ ∃ message, e = OperatorCmdError message.
Proof.
  unfold create_merge_list. rewrite !execute_command_spec.
  destruct (decide (0 < fst (OperatorCmd_execute "d r,a,s"))%Z); simpl;
    [intros [=]; subst e; right; by eexists|].
  destruct (decide (0 < fst (OperatorCmd_execute "d r,a,jn"))%Z); simpl;
    [intros [=]; subst e; right; by eexists|].
  destruct (parse_result_a _) as [la|ea] eqn:Ha; simpl.
  - destruct (parse_result_b _) as [lb|eb] eqn:Hb; simpl; [done|].
    intros [=]; subst e. left.
    unfold parse_result_b in Hb.
    destruct (loop_b_cases (split_char "010" None
                              (snd (OperatorCmd_execute "d r,a,jn"))) [])
      as [[_ Hr]|(_ & new & Hok & _)]; congruence.
  - intros [=]; subst e. left.
    unfold parse_result_a, run_a in Ha.
    destruct (loop_a_cases
                (length (split_char "010" None (snd (OperatorCmd_execute "d r,a,s"))))
                (split_char "010" None (snd (OperatorCmd_execute "d r,a,s")))
                0 init_a) as [[_ Hr]|(_ & st & Hok)];
      rewrite ?Hr, ?Hok in Ha; simpl in Ha; congruence.
Qed.

(** X16. With criteria that the validators returned, the filter never
    raises on the list the query has merged: it returns the records
    selected by number whose [system], [jobname] and [message_id] contain
    the criteria given. So the only exceptions [find_required_request] can
    raise are [OperatorCmdError], for a failed command or an empty result,
    and [IndexError], for a short header line; it raises no
    [TypeError]. *)
Theorem find_required_request_exceptions (p : params) :
  validated p →
  (∀ merged_list,
     create_merge_list OperatorCmd_execute = Ok merged_list →
     filter_requests merged_list p
     = Ok (List.filter
             (λ dict, passes "system" (system p) dict
                      && passes "jobname" (jobname p) dict
                      && passes "message_id" (message_id p) dict)
             (number_selection merged_list (request_number_list p))))
  ∧ (∀ e, find_required_request OperatorCmd_execute p = Raise e →
          e = IndexError ∨ ∃ message, e = OperatorCmdError message).
Proof.
  intros Hval.
  assert (Hfilter : ∀ merged_list,
     create_merge_list OperatorCmd_execute = Ok merged_list →
     filter_requests merged_list p
     = Ok (List.filter
             (λ dict, passes "system" (system p) dict
                      && passes "jobname" (jobname p) dict
                      && passes "message_id" (message_id p) dict)
             (number_selection merged_list (request_number_list p)))).
  { intros merged_list Hm. apply filter_requests_complete; [|done].
    by apply (create_merge_list_complete OperatorCmd_execute). }
  split; [exact Hfilter|].
  intros e. unfold find_required_request.
  destruct (create_merge_list OperatorCmd_execute) as [merged_list|e'] eqn:Hm; simpl.
  - rewrite (Hfilter _ eq_refl). simpl.
    destruct (List.filter _ _); [|done]. intros [= <-]. right. by eexists.
  - intros [= <-]. by apply create_merge_list_exceptions.
Qed.

End QueryValidated.

Lemma find_required_request_exceptions_witness :
  filter_requests [] (Params [PyStr "all"] (Some "MV2") None None) = Ok [].
Proof.
  etrans.
  - apply (find_required_request_exceptions quiet_console
             (Params [PyStr "all"] (Some "MV2") None None)).
    + intros criterion value Hin ->.
      apply list_elem_of_In in Hin. simpl in Hin.
      destruct Hin as [[= <-]|[[=]|[[=]|[]]]]. by exists "MV2".
    + reflexivity.
  - reflexivity.
Defined.

(** ** The module entry point *)

Section ModuleMore.
Variable check_mode : bool.
Variable parse_args : params → res params.
Variable OperatorCmd_execute : string → Z * string.
Variable format_exc : exn → string.

(** X17. However [run_module] ends, the [result] it carries has
    [changed] equal to [False] and echoes the parameters of the task in
    [original_message]; in check mode it returns that initial dictionary
    and neither parses the parameters nor issues a command. *)
Theorem run_module_result (module_params : params) :
  changed (result_of (run_module check_mode parse_args OperatorCmd_execute
                        format_exc module_params)) = false
  ∧ original_message
      (result_of (run_module check_mode parse_args OperatorCmd_execute
                    format_exc module_params)) = module_params
  ∧ (check_mode = true →
     ∀ parse_args' OperatorCmd_execute',
       run_module check_mode parse_args' OperatorCmd_execute' format_exc
         module_params
       = Return (Result false module_params None None None)).
Proof.
  unfold run_module. destruct check_mode; simpl; [done|].
  destruct (parse_args module_params) as [new_params|e]; simpl.
  - destruct (find_required_request OperatorCmd_execute new_params)
      as [[|dict found]|e]; simpl; [done|done|].
    by destruct (is_Error e).
  - by destruct (is_Error e).
Qed.

(** X18. When [run_module] ends in [exit_json], the parameters were
    parsed and the query returned a list that is not empty; [requests] is
    that list, [requests_count] is there and is its length, one at least,
    and [message] has the success text in [stdout] and an empty
    [stderr]. *)
Theorem run_module_success (module_params : params) (r : result_t) :
  run_module check_mode parse_args OperatorCmd_execute format_exc module_params
  = ExitJson r →
  check_mode = false
  ∧ ∃ new_params found,
      parse_args module_params = Ok new_params
      ∧ find_required_request OperatorCmd_execute new_params = Ok found
      ∧ requests r = Some found
      ∧ requests_count r = Some (length found)
      ∧ 1 ≤ length found
      ∧ message r = Some (success_message, EmptyString).
Proof.
  unfold run_module. destruct check_mode; simpl; [done|].
  destruct (parse_args module_params) as [new_params|e]; simpl;
    [|by destruct (is_Error e)].
  destruct (find_required_request OperatorCmd_execute new_params)
    as [found|e] eqn:Hfind; simpl; [|by destruct (is_Error e)].
  intros [= <-]. split; [done|]. exists new_params, found.
  assert (Hne : found ≠ []).
  { intros ->. unfold find_required_request in Hfind.
    destruct (create_merge_list OperatorCmd_execute); simpl in Hfind; [|done].
    destruct (filter_requests _ _) as [[|? ?]|]; simpl in Hfind; done. }
  destruct found as [|dict found]; [done|]. simpl. repeat split; [exact Hfind|lia].
Qed.

(** X19. How failures are reported, outside check mode. A
    [ValidationError] of the parser ends the module with the validation
    wording around the refused value, whatever the console would answer: no
    command decides the outcome. A positive return code of the first
    command ends it with the command wording around the message of the
    command. A short header line, for which the query raises [IndexError],
    ends it with the "unexpected error" wording. In each case the result
    carries no [message], no [requests] and no [requests_count]. *)
Theorem run_module_failures (module_params : params) :
  check_mode = false →
  (∀ value OperatorCmd_execute',
     parse_args module_params = Raise (ValidationError value) →
     run_module check_mode parse_args OperatorCmd_execute' format_exc
       module_params
     = FailJson
         (Some ("An error occurred during validate the input parameters: "
                +:+ dquote +:+ value +:+ dquote))
         (Result false module_params None None None))
  ∧ (∀ new_params,
       parse_args module_params = Ok new_params →
       (0 < fst (OperatorCmd_execute "d r,a,s"))%Z →
       run_module check_mode parse_args OperatorCmd_execute format_exc
         module_params
       = FailJson
           (Some ("An error occurred during issue the operator command, the response is "
                  +:+ dquote +:+ snd (OperatorCmd_execute "d r,a,s") +:+ dquote))
           (Result false module_params None None None))
  ∧ (∀ new_params,
       parse_args module_params = Ok new_params →
       find_required_request OperatorCmd_execute new_params = Raise IndexError →
       run_module check_mode parse_args OperatorCmd_execute format_exc
         module_params
       = FailJson
           (Some ("An unexpected error occurred: " +:+ format_exc IndexError))
           (Result false module_params None None None)).
Proof.
  intros ->. unfold run_module. repeat split.
  - intros value exec' ->. reflexivity.
  - intros new_params -> Hrc. simpl.
    unfold find_required_request, create_merge_list.
    rewrite !execute_command_spec.
    destruct (decide (0 < fst (OperatorCmd_execute "d r,a,s"))%Z);
      [reflexivity|contradiction].
  - intros new_params -> Hfind. simpl. by rewrite Hfind.
Qed.

End ModuleMore.

Lemma run_module_success_witness :
  requests_count
    (Result false default_params (Some (success_message, EmptyString)) (Some 1)
       (Some [ <["number" := "215"]> (<["jobname" := "IM5HCONN"]>
                 (<["message_id" := "HWSC0000I"]>
                    (<["message_text" := "*215 HWSC0000I"]>
                       (<["type" := "R"]> (<["system" := "MV27"]>
                          (<["job_id" := "STC01537"]> (∅ : record))))))) ]))
  = Some 1.
Proof.
  pose proof (run_module_success false Ok
    (λ command,
       if String.eqb command "d r,a,s"
       then (0%Z, "215 R MV27 STC01537 *215 HWSC0000I" +:+ String "010"
                    "216 R MV29 *216 DFS3139I")
       else (0%Z, "215 R IM5HCONN *215 HWSC0000I *IMS CONNECT READY*"))
    (λ _, EmptyString) default_params
    (Result false default_params (Some (success_message, EmptyString)) (Some 1)
       (Some [ <["number" := "215"]> (<["jobname" := "IM5HCONN"]>
                 (<["message_id" := "HWSC0000I"]>
                    (<["message_text" := "*215 HWSC0000I"]>
                       (<["type" := "R"]> (<["system" := "MV27"]>
                          (<["job_id" := "STC01537"]> (∅ : record))))))) ])))
    as Hs.
  destruct Hs as (_ & new_params & found & _ & _ & Hreq & Hcount & _).
  - vm_compute. reflexivity.
  - simpl in Hreq. injection Hreq as <-. exact Hcount.
Defined.

Lemma run_module_failures_witness :
  run_module false (λ _, Raise (ValidationError "5")) quiet_console
    (λ _, EmptyString) (Params [PyInt 5] None None None)
  = FailJson
      (Some ("An error occurred during validate the input parameters: "
             +:+ dquote +:+ "5" +:+ dquote))
      (Result false (Params [PyInt 5] None None None) None None None).
Proof.
  apply (run_module_failures false (λ _, Raise (ValidationError "5")) quiet_console
           (λ _, EmptyString) (Params [PyInt 5] None None None));
    reflexivity.
Defined.

End OperatorActionMore.

(* ===================================================================== *)
(** * Further properties of zos_tso_command *)
(* ===================================================================== *)

Module TsoMore.
Import Py Tso TsoSpec.

(** ** The blank command *)

(** [command.strip() == ""] holds exactly for a text of white space. *)
Lemma strip_blank (command : string) :
  is_empty (strip command) = true ↔ all_chars is_space command = true.
Proof.
  unfold strip. split.
  - intros H. apply OperatorActionSpec.strip_by_empty.
    by destruct (strip_by is_space command).
  - intros H. unfold strip_by.
    by rewrite (OperatorActionMore.all_chars_rstrip_by _ _ H).
Qed.

Section RunMore.
Variable run_command : command_line → Z * string * string.
Variable format_exc : exn → string.

(** X20. [run_module] refuses a command before running anything exactly
    when the command is missing or made of white space only: it then ends
    in [fail_json] with the message about the null or empty command and the
    initial [result], whatever the external command would answer; for any
    other command the external command is run. *)
Theorem run_module_blank_command (command : option string) (auth : scalar) :
  (command = None
   ∨ ∃ text, command = Some text ∧ all_chars is_space text = true)
  ↔ ∀ run_command',
      run_module run_command' format_exc command auth
      = FailJson (Some blank_command_message)
          (Result false (Atom (PyStr "")) (Atom (PyStr "")) (Atom (PyStr ""))).
Proof.
  split.
  - intros [->|(text & -> & Hblank%strip_blank)] run_command'; [done|].
    unfold run_module. by rewrite Hblank.
  - intros Hfail. destruct command as [text|]; [|by left]. right.
    exists text. split; [done|].
    apply strip_blank. destruct (is_empty (strip text)) eqn:Hblank; [done|].
    specialize (Hfail run_command).
    destruct (run_tso_command run_command text auth) as [[stdout stderr] rc] eqn:Hrun.
    rewrite (run_module_unexpected _ _ _ _ _ _ _ Hblank Hrun) in Hfail.
    discriminate.
Qed.

End RunMore.

End TsoMore.
